(** * The detection-result converter [pickle_to_txt]

    A shallow embedding of [src/get_results.py] (of which
    [src/picke_to_txt.py] is a copy with other paths in its [__main__]
    block), and the properties of its output files, its console output and
    its error boundary.

    The routine is I/O plumbing: it deserialises a container, walks it, and
    writes one text file per record.  The embedding therefore has three
    layers:
    - the Python values a pickle can hold, with the operations the routine
      applies to them (truth test, iteration, subscription, unpacking, text
      formatting);
    - a world made of a file system, the set of created directories, the
      console, and the failures the environment injects;
    - the routine itself, written in a state-and-exception monad over that
      world, statement by statement. *)

From Stdlib Require Import Ascii.
From stdpp Require Import base option list strings pretty gmap.

Set Warnings "-register-all,-clear-no-such-hyp".
Set Default Proof Using "Type*".

Local Open Scope string_scope.
Local Open Scope list_scope.

(** ** Python values *)

Module Py.

(** The values that reach the routine.  A float (a Python [float] or a
    numpy scalar) is carried by its [str()] text: formatting is the only
    operation the routine applies to a number, so the text determines
    everything the routine can observe.  A numpy array is a [PyList] of its
    rows (iteration and unpacking are all the routine does with one).
    Dictionaries keep insertion order and are keyed by strings. *)
Inductive pyval : Type :=
| PyNone
| PyBool (b : bool)
| PyInt (n : Z)
| PyFloat (text : string)
| PyStr (s : string)
| PyList (items : list pyval)
| PyTuple (items : list pyval)
| PyDict (entries : list (string * pyval)).

Definition type_name (v : pyval) : string :=
  match v with
  | PyNone => "NoneType"
  | PyBool _ => "bool"
  | PyInt _ => "int"
  | PyFloat _ => "float"
  | PyStr _ => "str"
  | PyList _ => "list"
  | PyTuple _ => "tuple"
  | PyDict _ => "dict"
  end.

(** *** Text forms: [repr] and [format] *)

Definition newline : ascii := "010"%char.
Definition nl : string := String newline "".
Definition dquote : ascii := "034"%char.

Definition hex_digit (n : N) : ascii :=
  match String.get (N.to_nat n) "0123456789abcdef" with
  | Some c => c
  | None => "0"%char
  end.

(** One character of [repr] of a [str] delimited by quote [q].  Strings are
    ASCII text; a character above 127 is passed through. *)
Definition repr_char (q c : ascii) : string :=
  let n := N_of_ascii c in
  if decide (c = "\"%char) then "\\"
  else if decide (c = q) then String "\" (String q "")
  else if decide (n = 9%N) then "\t"
  else if decide (n = 10%N) then "\n"
  else if decide (n = 13%N) then "\r"
  else if decide (n < 32 ∨ n = 127)%N
       then String "\" (String "x" (String (hex_digit (n `div` 16))
                                       (String (hex_digit (n `mod` 16)) "")))
  else String c "".

Fixpoint has_char (c : ascii) (s : string) : bool :=
  match s with
  | "" => false
  | String d s' => if decide (c = d) then true else has_char c s'
  end.

Fixpoint concat_map_chars (f : ascii → string) (s : string) : string :=
  match s with
  | "" => ""
  | String c s' => f c +:+ concat_map_chars f s'
  end.

(** [repr] of a [str]: single quotes unless the text has a single quote and
    no double quote. *)
Definition repr_str (s : string) : string :=
  let q := if has_char "'"%char s && negb (has_char dquote s)
           then dquote else "'"%char in
  String q (concat_map_chars (repr_char q) s +:+ String q "").

Fixpoint comma_join (l : list string) : string :=
  match l with
  | [] => ""
  | [s] => s
  | s :: rest => s +:+ ", " +:+ comma_join rest
  end.

Fixpoint py_repr (v : pyval) : string :=
  match v with
  | PyNone => "None"
  | PyBool true => "True"
  | PyBool false => "False"
  | PyInt n => pretty n
  | PyFloat text => text
  | PyStr s => repr_str s
  | PyList items => "[" +:+ comma_join (map py_repr items) +:+ "]"
  | PyTuple items =>
      match items with
      | [x] => "(" +:+ py_repr x +:+ ",)"
      | _ => "(" +:+ comma_join (map py_repr items) +:+ ")"
      end
  | PyDict entries =>
      "{" +:+ comma_join
                (map (λ kv, repr_str (fst kv) +:+ ": " +:+ py_repr (snd kv))
                     entries) +:+ "}"
  end.

(** What a replacement field [{v}] of an f-string produces:
    [format(v, "")], which is [str(v)]. *)
Definition py_format (v : pyval) : string :=
  match v with
  | PyStr s => s
  | _ => py_repr v
  end.

(** *** Truth value, as tested by [not data] *)

Definition truthy (v : pyval) : bool :=
  match v with
  | PyNone => false
  | PyBool b => b
  | PyInt n => bool_decide (n ≠ 0%Z)
  | PyFloat text => bool_decide (text ≠ "0.0" ∧ text ≠ "-0.0")
  | PyStr s => bool_decide (s ≠ "")
  | PyList items | PyTuple items => bool_decide (items ≠ [])
  | PyDict entries => bool_decide (entries ≠ [])
  end.

(** *** Exceptions *)

(** Every exception of the model is an instance of Python's [Exception]
    class.  Messages follow CPython 3.12. *)
Inductive exn : Type :=
| FileNotFoundError (path : string)
| EOFError (msg : string)
| UnpicklingError (msg : string)
| OSError (msg : string)
| KeyError (key : string)
| TypeError (msg : string)
| ValueError (msg : string).

(** [str(e)], what [{e}] prints. *)
Definition exn_str (e : exn) : string :=
  match e with
  | FileNotFoundError path =>
      "[Errno 2] No such file or directory: " +:+ repr_str path
  | KeyError key => repr_str key
  | EOFError msg | UnpicklingError msg | OSError msg
  | TypeError msg | ValueError msg => msg
  end.

Inductive outcome (A : Type) : Type :=
| Ok (a : A)
| Raise (e : exn).
Global Arguments Ok {A} a.
Global Arguments Raise {A} e.

(** *** Iteration, subscription, unpacking *)

Definition chars (s : string) : list pyval :=
  (λ c, PyStr (String c "")) <$> String.list_ascii_of_string s.

(** [iter(v)] drained into a list. *)
Definition py_iter (v : pyval) : outcome (list pyval) :=
  match v with
  | PyList items | PyTuple items => Ok items
  | PyStr s => Ok (chars s)
  | PyDict entries => Ok ((λ kv, PyStr (fst kv)) <$> entries)
  | _ => Raise (TypeError ("'" +:+ type_name v +:+ "' object is not iterable"))
  end.

Fixpoint dict_get (entries : list (string * pyval)) (key : string)
  : option pyval :=
  match entries with
  | [] => None
  | (k, v) :: rest => if decide (k = key) then Some v else dict_get rest key
  end.

(** [v[key]] for a string key. *)
Definition py_getitem (v : pyval) (key : string) : outcome pyval :=
  match v with
  | PyDict entries =>
      match dict_get entries key with
      | Some x => Ok x
      | None => Raise (KeyError key)
      end
  | PyStr _ => Raise (TypeError "string indices must be integers, not 'str'")
  | PyList _ =>
      Raise (TypeError "list indices must be integers or slices, not str")
  | PyTuple _ =>
      Raise (TypeError "tuple indices must be integers or slices, not str")
  | _ =>
      Raise (TypeError ("'" +:+ type_name v +:+ "' object is not subscriptable"))
  end.

Definition box_fields : Type :=
  pyval * pyval * pyval * pyval * pyval * pyval * pyval.

(** [x, y, z, length, width, height, rotation = box]. *)
Definition unpack7 (box : pyval) : outcome box_fields :=
  match py_iter box with
  | Raise _ =>
      Raise (TypeError ("cannot unpack non-iterable " +:+ type_name box
                        +:+ " object"))
  | Ok [x; y; z; length; width; height; rotation] =>
      Ok (x, y, z, length, width, height, rotation)
  | Ok items =>
      if decide (List.length items < 7)
      then Raise (ValueError ("not enough values to unpack (expected 7, got "
                              +:+ pretty (List.length items) +:+ ")"))
      else Raise (ValueError "too many values to unpack (expected 7)")
  end.

End Py.
Export Py.

(** ** The world: files, directories, console, injected failures *)

Module Sys.

(** A regular file is either a binary file that [pickle.load] turns into a
    value, or a text file with its content. *)
Inductive file : Type :=
| Pickled (v : pyval)
| Text (content : string).

(** The places where the environment can make a system call fail
    (permissions, a missing parent directory, ...). *)
Inductive io_op : Type :=
| OpRead (path : string)
| OpMkdir (path : string)
| OpOpen (path : string).

(** The world: the regular files by path, the directories made, the
    console, the failures the environment injects, and what [pickle.load]
    makes of the bytes of a text file. *)
Record world : Type := World {
  files : gmap string file;
  dirs : gset string;
  stdout : list string;
  faults : io_op → option exn;
  unpickle : string → outcome pyval
}.

Definition with_files (fs : gmap string file) (w : world) : world :=
  World fs (dirs w) (stdout w) (faults w) (unpickle w).
Definition with_dirs (ds : gset string) (w : world) : world :=
  World (files w) ds (stdout w) (faults w) (unpickle w).
Definition with_stdout (out : list string) (w : world) : world :=
  World (files w) (dirs w) out (faults w) (unpickle w).

(** Computations that read and change the world and may raise; the world
    reached when an exception is raised is kept, since what was written
    before stays written. *)
Definition M (A : Type) : Type := world → outcome A * world.

Global Instance M_ret : MRet M := λ A a w, (Ok a, w).
Global Instance M_bind : MBind M := λ A B f m w,
  match m w with
  | (Ok a, w') => f a w'
  | (Raise e, w') => (Raise e, w')
  end.

(** A pure operation that may raise. *)
Definition lift {A} (o : outcome A) : M A := λ w, (o, w).

(** [try: body except Exception as e: handler e]. *)
Definition try_except {A} (body : M A) (handler : exn → M A) : M A := λ w,
  match body w with
  | (Ok a, w') => (Ok a, w')
  | (Raise e, w') => handler e w'
  end.

(** [print(msg)]: one more entry on the console. *)
Definition print (msg : string) : M unit := λ w,
  (Ok tt, with_stdout (stdout w ++ [msg]) w).

(** What [pickle.load] makes of a file.  A binary file gives its value.
    What the bytes of a text file give (most texts are no pickle, some
    are one of protocol 0) is for the world to say: [u] is its
    [unpickle]. *)
Definition pickle_load (u : string → outcome pyval) (f : file)
  : outcome pyval :=
  match f with
  | Pickled v => Ok v
  | Text content => u content
  end.

(** A world in which no text is a pickle. *)
Definition not_a_pickle : string → outcome pyval :=
  λ _, Raise (UnpicklingError "invalid load key").

(** [with open(path, 'rb') as f: pickle.load(f)]. *)
Definition open_and_load (path : string) : M pyval := λ w,
  match faults w (OpRead path) with
  | Some e => (Raise e, w)
  | None =>
      match files w !! path with
      | None => (Raise (FileNotFoundError path), w)
      | Some f => (pickle_load (unpickle w) f, w)
      end
  end.

(** [os.makedirs(path, exist_ok=True)].  [dirs] keeps the names the run
    has had made; the missing parents that [os.makedirs] makes on the way
    to [path], also those it leaves when it fails, are not recorded. *)
Definition makedirs (path : string) : M unit := λ w,
  match faults w (OpMkdir path) with
  | Some e => (Raise e, w)
  | None => (Ok tt, with_dirs ({[path]} ∪ dirs w) w)
  end.

(** [open(path, 'w')]: the file is created, or emptied if it exists. *)
Definition open_w (path : string) : M unit := λ w,
  match faults w (OpOpen path) with
  | Some e => (Raise e, w)
  | None => (Ok tt, with_files (<[path := Text ""]> (files w)) w)
  end.

Definition text_of (f : option file) : string :=
  match f with
  | Some (Text s) => s
  | _ => ""
  end.

(** [txt_f.write(line)] on the file opened at [path].  The file object
    buffers: a write that the disk refuses shows when the buffer is
    flushed, at a moment the size of the output decides; such a failure
    is not among those the model injects. *)
Definition file_write (path : string) (line : string) : M unit := λ w,
  (Ok tt,
   with_files (<[path := Text (text_of (files w !! path) +:+ line)]>
                 (files w)) w).

Definition starts_with_sep (s : string) : bool :=
  match s with
  | String c _ => bool_decide (c = "/"%char)
  | "" => false
  end.

Fixpoint ends_with_sep (s : string) : bool :=
  match s with
  | "" => false
  | String c "" => bool_decide (c = "/"%char)
  | String _ s' => ends_with_sep s'
  end.

(** [os.path.join(a, b)] of posixpath. *)
Definition os_path_join (a b : string) : string :=
  if starts_with_sep b then b
  else if bool_decide (a = "") || ends_with_sep a then a +:+ b
  else a +:+ "/" +:+ b.

End Sys.
Export Sys.

(** ** The routine *)

Module Converter.

(** The f-string of source line 28. *)
Definition format_line (f : box_fields) (score : pyval) : string :=
  let '(x, y, z, length, width, height, rotation) := f in
  py_format x +:+ " " +:+ py_format y +:+ " " +:+ py_format z +:+ " "
  +:+ py_format length +:+ " " +:+ py_format width +:+ " "
  +:+ py_format height +:+ " " +:+ py_format rotation +:+ " "
  +:+ py_format score +:+ nl.

(** The loop of lines 26 to 30 over the pairs that [zip] yields, [j] being
    the index [enumerate] has reached. *)
Fixpoint write_boxes (txt_file : string) (frame_id : pyval) (j : nat)
    (pairs : list (pyval * pyval)) : M unit :=
  match pairs with
  | [] => mret tt
  | (box, score) :: rest =>
      f ← lift (unpack7 box);
      file_write txt_file (format_line f score);;
      print ("Written box " +:+ pretty j +:+ " for frame "
             +:+ py_format frame_id);;
      write_boxes txt_file frame_id (S j) rest
  end.

(** The body of the outer loop, lines 18 to 32.  [zip] asks both arguments
    for an iterator when it is called, and stops at the shorter one. *)
Definition convert_sample (output_dir : string) (sample : pyval) : M unit :=
  frame_id ← lift (py_getitem sample "frame_id");
  boxes_lidar ← lift (py_getitem sample "boxes_lidar");
  scores ← lift (py_getitem sample "score");
  let txt_file := os_path_join output_dir (py_format frame_id +:+ ".txt") in
  print ("Writing to file: " +:+ txt_file);;
  open_w txt_file;;
  boxes ← lift (py_iter boxes_lidar);
  ss ← lift (py_iter scores);
  write_boxes txt_file frame_id 0 (zip boxes ss);;
  print ("Completed writing for frame " +:+ py_format frame_id).

(** [for i, sample in enumerate(data)]; the index [i] is not used. *)
Fixpoint convert_samples (output_dir : string) (samples : list pyval)
  : M unit :=
  match samples with
  | [] => mret tt
  | sample :: rest =>
      convert_sample output_dir sample;;
      convert_samples output_dir rest
  end.

(** The [try] block, lines 6 to 32.  Its value is what the function
    returns when no exception is raised: [None], both at the explicit
    [return] and at the end of the block. *)
Definition pickle_to_txt_body (pickle_file output_dir : string) : M pyval :=
  print ("Loading pickle file: " +:+ pickle_file);;
  data ← open_and_load pickle_file;
  print ("Creating output directory: " +:+ output_dir);;
  makedirs output_dir;;
  if negb (truthy data) then
    print "No data found in pickle file.";;
    mret PyNone
  else
    samples ← lift (py_iter data);
    convert_samples output_dir samples;;
    mret PyNone.

(** [pickle_to_txt(pickle_file, output_dir)], lines 4 to 35. *)
Definition pickle_to_txt (pickle_file output_dir : string) : M pyval :=
  try_except (pickle_to_txt_body pickle_file output_dir)
    (λ e, print ("An error occurred: " +:+ exn_str e);; mret PyNone).

End Converter.
Export Converter.

(** ** The data model the routine is meant for *)

Module Model.

(** A FrameResult: an identifier, boxes of seven fields each, and scores. *)
Record frame : Type := Frame {
  fr_id : pyval;
  fr_boxes : list box_fields;
  fr_scores : list pyval
}.

Definition ok {A} (o : outcome A) : option A :=
  match o with
  | Ok a => Some a
  | Raise _ => None
  end.

(** A record of the container read as a FrameResult: the three fields are
    there, boxes and scores can be iterated, every box unpacks into seven
    fields.  Nothing is asked of the two lengths. *)
Definition read_frame (sample : pyval) : option frame :=
  fid ← ok (py_getitem sample "frame_id");
  boxes_lidar ← ok (py_getitem sample "boxes_lidar");
  scores ← ok (py_getitem sample "score");
  boxes ← ok (py_iter boxes_lidar);
  ss ← ok (py_iter scores);
  fields ← mapM (λ box, ok (unpack7 box)) boxes;
  Some (Frame fid fields ss).

(** The container read as a ResultSet. *)
Definition read_result_set (data : pyval) : option (list frame) :=
  samples ← ok (py_iter data);
  mapM read_frame samples.

(** The line of a box and its score as the specification words it: the
    eight text forms, single spaces between them, a newline at the end. *)
Definition join_spaces (l : list string) : string := String.concat " " l.

Definition spec_line (f : box_fields) (score : pyval) : string :=
  let '(x, y, z, length, width, height, rotation) := f in
  join_spaces (py_format <$> [x; y; z; length; width; height; rotation; score])
  +:+ nl.

Definition spec_lines (fr : frame) : list string :=
  zip_with spec_line (fr_boxes fr) (fr_scores fr).

Definition concat_lines (l : list string) : string := String.concat "" l.
Global Arguments concat_lines : simpl never.

(** The number of lines of a text: its newline characters. *)
Fixpoint count_lines (s : string) : nat :=
  match s with
  | "" => 0
  | String c s' => (if decide (c = newline) then 1 else 0) + count_lines s'
  end.

(** The name and path of the file of a frame. *)
Definition frame_name (fr : frame) : string := py_format (fr_id fr).
Definition frame_path (output_dir : string) (fr : frame) : string :=
  os_path_join output_dir (frame_name fr +:+ ".txt").

(** What the routine writes for a frame, and for a list of frames in
    order: a later frame replaces the file of an earlier one at the same
    path. *)
Definition frame_text (fr : frame) : string :=
  concat_lines (zip_with format_line (fr_boxes fr) (fr_scores fr)).

Definition write_frames (output_dir : string) (frs : list frame)
    (fs : gmap string file) : gmap string file :=
  foldl (λ m fr, <[frame_path output_dir fr := Text (frame_text fr)]> m) fs frs.

(** The console lines of the loops. *)
Definition box_log (fid : pyval) (j n : nat) : list string :=
  (λ k, "Written box " +:+ pretty k +:+ " for frame " +:+ py_format fid)
    <$> seq j n.
Global Arguments box_log : simpl never.

Definition frame_log (output_dir : string) (fr : frame) : list string :=
  ["Writing to file: " +:+ frame_path output_dir fr]
  ++ box_log (fr_id fr) 0 (List.length (fr_boxes fr) `min` List.length (fr_scores fr))
  ++ ["Completed writing for frame " +:+ frame_name fr].

Definition frames_log (output_dir : string) (frs : list frame) : list string :=
  concat (frame_log output_dir <$> frs).

Definition no_faults (w : world) : Prop := ∀ op, faults w op = None.

(** A number as the data model has them: an integer, or a float whose text
    is made of the characters [str] of a float uses. *)
Definition float_char (c : ascii) : bool :=
  has_char c "0123456789.-+einfa".

Fixpoint all_chars (p : ascii → bool) (s : string) : bool :=
  match s with
  | "" => true
  | String c s' => p c && all_chars p s'
  end.

Definition numeric (v : pyval) : bool :=
  match v with
  | PyInt _ => true
  | PyFloat text => all_chars float_char text
  | _ => false
  end.

Definition numeric_box (f : box_fields) : bool :=
  let '(x, y, z, length, width, height, rotation) := f in
  numeric x && numeric y && numeric z && numeric length && numeric width
  && numeric height && numeric rotation.

Definition numeric_frame (fr : frame) : bool :=
  forallb numeric_box (fr_boxes fr) && forallb numeric (fr_scores fr).

(** The fields a record is asked for, in the order of the source, and the
    first of them a dictionary lacks. *)
Definition required_fields : list string := ["frame_id"; "boxes_lidar"; "score"].

Definition first_missing (entries : list (string * pyval)) : option string :=
  match dict_get entries "frame_id",
        dict_get entries "boxes_lidar",
        dict_get entries "score" with
  | None, _, _ => Some "frame_id"
  | Some _, None, _ => Some "boxes_lidar"
  | Some _, Some _, None => Some "score"
  | Some _, Some _, Some _ => None
  end.

(** The message of the [ValueError] of unpacking [n] items into seven
    names, [n] not being 7. *)
Definition wrong_length_message (n : nat) : string :=
  if decide (n < 7)
  then "not enough values to unpack (expected 7, got " +:+ pretty n +:+ ")"
  else "too many values to unpack (expected 7)".

(** The world when the loop over the records starts, and the world a
    complete run leaves. *)
Definition prepared (pickle_file output_dir : string) (w : world) : world :=
  World (files w)
        ({[output_dir]} ∪ dirs w)
        (stdout w
         ++ ["Loading pickle file: " +:+ pickle_file;
             "Creating output directory: " +:+ output_dir])
        (faults w) (unpickle w).

Definition converted (pickle_file output_dir : string) (frs : list frame)
    (w : world) : world :=
  World (write_frames output_dir frs (files w))
        ({[output_dir]} ∪ dirs w)
        (stdout w
         ++ ["Loading pickle file: " +:+ pickle_file;
             "Creating output directory: " +:+ output_dir]
         ++ frames_log output_dir frs)
        (faults w) (unpickle w).


(** What the source gives when it is opened and loaded; the world is not
    changed by it. *)
Definition load_result (pickle_file : string) (w : world) : outcome pyval :=
  (open_and_load pickle_file w).1.

(** The [try] block from the creation of the directory on. *)
Definition after_load (output_dir : string) (data : pyval) : M pyval :=
  print ("Creating output directory: " +:+ output_dir);;
  makedirs output_dir;;
  if negb (truthy data) then
    print "No data found in pickle file.";;
    mret PyNone
  else
    samples ← lift (py_iter data);
    convert_samples output_dir samples;;
    mret PyNone.

End Model.
Export Model.

(** ** Effects on the file system *)

Module Effects.

(** A computation that only writes: which text files it leaves, which
    directories it adds, what it prints and how it ends are decided by the
    injected failures alone; the files it leaves replace those at the same
    paths, every other file stays. *)
Definition text_files (F : gmap string file) : Prop :=
  ∀ p f, F !! p = Some f → ∃ c, f = Text c.

Definition writes_only {A} (m : M A) : Prop :=
  ∀ fl : io_op → option exn,
    ∃ (r : outcome A) (F : gmap string file) (D : gset string)
      (out : list string),
      text_files F
      ∧ ∀ w, faults w = fl →
             m w = (r, World (F ∪ files w) (D ∪ dirs w) (stdout w ++ out) fl (unpickle w)).

(** A computation that only appends to the file at [path]. *)
Definition appends_to (path : string) {A} (m : M A) : Prop :=
  ∀ fl : io_op → option exn,
    ∃ (r : outcome A) (text : string) (out : list string),
      ∀ w acc, faults w = fl → files w !! path = Some (Text acc) →
               m w = (r, World (<[path := Text (acc +:+ text)]> (files w))
                               (dirs w) (stdout w ++ out) fl (unpickle w)).

End Effects.
Export Effects.

(** ** Worlds to run the routine in *)

Module Scenarios.

(** The scenario of the specification: one frame, one box. *)
Definition scenario_frame : pyval :=
  PyDict [("frame_id", PyStr "000001");
          ("boxes_lidar",
           PyList [PyList (PyFloat <$> ["1.0"; "2.0"; "3.0"; "4.0"; "5.0";
                                        "6.0"; "0.1"])]);
          ("score", PyList [PyFloat "0.87"])].

(** The same frame in the data model. *)
Definition scenario_model : frame :=
  Frame (PyStr "000001")
        [(PyFloat "1.0", PyFloat "2.0", PyFloat "3.0", PyFloat "4.0",
          PyFloat "5.0", PyFloat "6.0", PyFloat "0.1")]
        [PyFloat "0.87"].

Definition calm : io_op → option exn := λ _, None.

Definition scenario_world : world :=
  World {["result.pkl" := Pickled (PyList [scenario_frame])]} ∅ [] calm not_a_pickle.

(** Two boxes, one score. *)
Definition lopsided_frame : pyval :=
  PyDict [("frame_id", PyStr "f");
          ("boxes_lidar",
           PyList [PyList (PyInt <$> [1; 2; 3; 4; 5; 6; 7]%Z);
                   PyList (PyInt <$> [8; 9; 10; 11; 12; 13; 14]%Z)]);
          ("score", PyList [PyFloat "0.9"])].

Definition lopsided_model : frame :=
  Frame (PyStr "f")
        [(PyInt 1, PyInt 2, PyInt 3, PyInt 4, PyInt 5, PyInt 6, PyInt 7);
         (PyInt 8, PyInt 9, PyInt 10, PyInt 11, PyInt 12, PyInt 13, PyInt 14)]
        [PyFloat "0.9"].

Definition lopsided_world : world :=
  World {["result.pkl" := Pickled (PyList [lopsided_frame])]} ∅ [] calm not_a_pickle.

(** A world whose source file holds a container with no frame. *)
Definition empty_world : world :=
  World {["result.pkl" := Pickled (PyList [])]} ∅ [] calm not_a_pickle.

(** A good record, a record with a [frame_id] only, a good record. *)
Definition broken_world : world :=
  World {["result.pkl" :=
            Pickled (PyList [scenario_frame; PyDict [("frame_id", PyInt 7)];
                             scenario_frame])]} ∅ [] calm not_a_pickle.

(** A record whose second box has three items. *)
Definition short_box_frame : pyval :=
  PyDict [("frame_id", PyStr "g");
          ("boxes_lidar",
           PyList [PyList (PyInt <$> [1; 2; 3; 4; 5; 6; 7]%Z);
                   PyList (PyInt <$> [1; 2; 3]%Z);
                   PyList (PyInt <$> [8; 9; 10; 11; 12; 13; 14]%Z)]);
          ("score", PyList [PyFloat "0.9"; PyFloat "0.8"; PyFloat "0.7"])].

Definition short_box_world : world :=
  World {["result.pkl" :=
            Pickled (PyList [scenario_frame; short_box_frame; scenario_frame])]}
        ∅ [] calm not_a_pickle.

(** Two frames with the same identifier: one box, then none. *)
Definition twin_data : pyval :=
  PyList [PyDict [("frame_id", PyStr "a");
                  ("boxes_lidar", PyList [PyList (PyInt <$> [1; 2; 3; 4; 5; 6; 7]%Z)]);
                  ("score", PyList [PyFloat "0.5"])];
          PyDict [("frame_id", PyStr "a");
                  ("boxes_lidar", PyList []);
                  ("score", PyList [])]].

Definition twin_first : frame :=
  Frame (PyStr "a")
        [(PyInt 1, PyInt 2, PyInt 3, PyInt 4, PyInt 5, PyInt 6, PyInt 7)]
        [PyFloat "0.5"].

Definition twin_second : frame := Frame (PyStr "a") [] [].

Definition twin_world : world :=
  World {["result.pkl" := Pickled twin_data]} ∅ [] calm not_a_pickle.

(** A record whose only box has three items and no score to go with. *)
Definition unpaired_world : world :=
  World {["result.pkl" :=
            Pickled (PyList [PyDict [("frame_id", PyStr "h");
                                     ("boxes_lidar",
                                      PyList [PyList (PyInt <$> [1; 2; 3]%Z)]);
                                     ("score", PyList [])]])]}
        ∅ [] calm not_a_pickle.

(** An environment that fails: the file at [path] cannot be opened for
    writing. *)
Definition read_only (path : string) : io_op → option exn := λ op,
  match op with
  | OpOpen p =>
      if decide (p = path)
      then Some (OSError ("[Errno 13] Permission denied: " +:+ repr_str path))
      else None
  | _ => None
  end.

End Scenarios.
Export Scenarios.

(** ** The scripts *)

Module Script.

(** The [__main__] blocks: each file calls the routine once, at the paths
    written in it. *)
Definition get_results_output_dir : string :=
  "/home/tauproj1/Innoviz_Project/OpenPCDet-master_New_copy/3D_Object_Detector/Evaluation/pvrcnn_evaluations/pvrcnn_best/detector_labels".

Definition get_results_pickle_file : string :=
  "/home/tauproj1/Innoviz_Project/OpenPCDet-master_New_copy/3D_Object_Detector/Evaluation/pvrcnn_evaluations/model_outputs/pv_rcnn_test_best/default/eval/eval_with_train/epoch_80/val/result.pkl".

Definition get_results_main : M pyval :=
  pickle_to_txt get_results_pickle_file get_results_output_dir.

Definition picke_to_txt_output_dir : string := "/path/to/output/directory".
Definition picke_to_txt_pickle_file : string := "/path/to/results/pickle/file".

Definition picke_to_txt_main : M pyval :=
  pickle_to_txt picke_to_txt_pickle_file picke_to_txt_output_dir.

End Script.
Export Script.

(** ** More of the data model and of the worlds *)

Module Views.

Definition is_dict (v : pyval) : bool :=
  match v with
  | PyDict _ => true
  | _ => false
  end.

(** The two console lines before the loop. *)
Definition header (pickle_file output_dir : string) : list string :=
  ["Loading pickle file: " +:+ pickle_file;
   "Creating output directory: " +:+ output_dir].

(** White space as [str.split()] sees it in ASCII text: tab, line feed,
    vertical tab, form feed, carriage return, the four separators 28 to
    31, and the blank. *)
Definition py_space (c : ascii) : bool :=
  let n := N_of_ascii c in
  bool_decide (9 ≤ n ≤ 13)%N || bool_decide (28 ≤ n ≤ 32)%N.

Definition no_space (c : ascii) : bool := negb (py_space c).

(** A text that [str.split()] gives back as one word: not empty, no white
    space in it. *)
Definition is_token (s : string) : bool :=
  negb (bool_decide (s = "")) && all_chars no_space s.

Definition word_list (cur : string) : list string :=
  if bool_decide (cur = "") then [] else [cur].

(** [line.split()]: the words of a line, cut at runs of white space;
    [cur] is the word being read. *)
Fixpoint split_go (cur : string) (s : string) : list string :=
  match s with
  | "" => word_list cur
  | String c s' =>
      if py_space c then word_list cur ++ split_go "" s'
      else split_go (cur +:+ String c "") s'
  end.

Definition py_split (line : string) : list string := split_go "" line.

(** The eight text forms of a box and its score. *)
Definition field_texts (f : box_fields) (score : pyval) : list string :=
  let '(x, y, z, length, width, height, rotation) := f in
  py_format <$> [x; y; z; length; width; height; rotation; score].

(** A source that holds nothing ([None]), one that holds a number, and one
    that holds a single record instead of a list of records. *)
Definition none_world : world :=
  World {["result.pkl" := Pickled PyNone]} ∅ [] calm not_a_pickle.

Definition number_world : world :=
  World {["result.pkl" := Pickled (PyInt 5)]} ∅ [] calm not_a_pickle.

Definition lone_record_world : world :=
  World {["result.pkl" := Pickled scenario_frame]} ∅ [] calm not_a_pickle.

(** The frames of [twin_data] with different identifiers, in both orders,
    as two sources of one world. *)
Definition pair_ab : pyval :=
  PyList [PyDict [("frame_id", PyStr "a");
                  ("boxes_lidar",
                   PyList [PyList (PyInt <$> [1; 2; 3; 4; 5; 6; 7]%Z)]);
                  ("score", PyList [PyFloat "0.5"])];
          PyDict [("frame_id", PyStr "b");
                  ("boxes_lidar", PyList []);
                  ("score", PyList [])]].

Definition pair_ba : pyval :=
  PyList [PyDict [("frame_id", PyStr "b");
                  ("boxes_lidar", PyList []);
                  ("score", PyList [])];
          PyDict [("frame_id", PyStr "a");
                  ("boxes_lidar",
                   PyList [PyList (PyInt <$> [1; 2; 3; 4; 5; 6; 7]%Z)]);
                  ("score", PyList [PyFloat "0.5"])]].

Definition frame_b : frame := Frame (PyStr "b") [] [].

Definition two_sources_world : world :=
  World {["ab.pkl" := Pickled pair_ab; "ba.pkl" := Pickled pair_ba]} ∅ [] calm not_a_pickle.

(** A list of records with a number in the middle, and one whose second
    record has [None] for boxes. *)
Definition number_record_world : world :=
  World {["result.pkl" :=
            Pickled (PyList [scenario_frame; PyInt 3; scenario_frame])]}
        ∅ [] calm not_a_pickle.

Definition none_boxes_record : pyval :=
  PyDict [("frame_id", PyStr "n");
          ("boxes_lidar", PyNone);
          ("score", PyList [PyFloat "0.5"])].

Definition none_boxes_world : world :=
  World {["result.pkl" := Pickled (PyList [scenario_frame; none_boxes_record])]}
        ∅ [] calm not_a_pickle.

(** A frame whose identifier is an absolute path. *)
Definition absolute_frame : pyval :=
  PyDict [("frame_id", PyStr "/tmp/x");
          ("boxes_lidar", PyList []);
          ("score", PyList [])].

Definition absolute_model : frame := Frame (PyStr "/tmp/x") [] [].

Definition absolute_world : world :=
  World {["result.pkl" := Pickled (PyList [absolute_frame])]} ∅ [] calm not_a_pickle.

(** Two good records for two files, the second of which cannot be opened
    for writing. *)
Definition second_frame : pyval :=
  PyDict [("frame_id", PyStr "000002");
          ("boxes_lidar", PyList []);
          ("score", PyList [])].

Definition second_model : frame := Frame (PyStr "000002") [] [].

Definition second_read_only_world : world :=
  World {["result.pkl" := Pickled (PyList [scenario_frame; second_frame])]}
        ∅ [] (read_only "out/000002.txt") not_a_pickle.

(** Four frames with the identifiers a, a, the number 1 and the string 1:
    three different values, two different texts. *)
Definition plain_record (fid : pyval) : pyval :=
  PyDict [("frame_id", fid); ("boxes_lidar", PyList []); ("score", PyList [])].

Definition quad_ids : list pyval := [PyStr "a"; PyStr "a"; PyInt 1; PyStr "1"].

Definition quad_world : world :=
  World {["result.pkl" := Pickled (PyList (plain_record <$> quad_ids))]}
        ∅ [] calm not_a_pickle.

(** An environment in which the directory at [path] cannot be made. *)
Definition no_mkdir (path : string) : io_op → option exn := λ op,
  match op with
  | OpMkdir p =>
      if decide (p = path)
      then Some (OSError ("[Errno 13] Permission denied: " +:+ repr_str path))
      else None
  | _ => None
  end.

End Views.
Export Views.

(** ** Strings *)

Section strings.

Lemma append_nil_l (s : string) : "" +:+ s = s.
Proof. reflexivity. Qed.

Lemma append_cons (c : ascii) (s t : string) :
  String c s +:+ t = String c (s +:+ t).
Proof. reflexivity. Qed.

Lemma append_nil_r (s : string) : s +:+ "" = s.
Proof. induction s as [|c s IH]; [done | by rewrite append_cons, IH]. Qed.

Lemma append_assoc (s t u : string) : (s +:+ t) +:+ u = s +:+ t +:+ u.
Proof. induction s as [|c s IH]; [done | by rewrite !append_cons, IH]. Qed.

Lemma count_lines_app (s t : string) :
  count_lines (s +:+ t) = count_lines s + count_lines t.
Proof.
  induction s as [|c s IH]; [done |].
  rewrite append_cons. simpl. rewrite IH. lia.
Qed.

Lemma concat_lines_cons (s : string) (l : list string) :
  concat_lines (s :: l) = s +:+ concat_lines l.
Proof.
  unfold concat_lines. destruct l as [|t l]; simpl;
    [symmetry; apply append_nil_r | by rewrite append_nil_l].
Qed.

Lemma concat_lines_app (l k : list string) :
  concat_lines (l ++ k) = concat_lines l +:+ concat_lines k.
Proof.
  induction l as [|s l IH]; [done |].
  rewrite <- app_comm_cons, !concat_lines_cons, IH. by rewrite append_assoc.
Qed.

(** The f-string of the source and the line of the specification are the
    same text. *)
Lemma format_line_spec (f : box_fields) (score : pyval) :
  format_line f score = spec_line f score.
Proof.
  destruct f as [[[[[[x y] z] l] wd] h] r].
  unfold format_line, spec_line, join_spaces. simpl.
  by rewrite !append_assoc.
Qed.

Lemma zip_with_format_line_spec (fs : list box_fields) (ss : list pyval) :
  zip_with format_line fs ss = zip_with spec_line fs ss.
Proof.
  revert ss. induction fs as [|f fs IH]; intros [|s ss]; simpl; try done.
  by rewrite format_line_spec, IH.
Qed.

Lemma frame_text_spec (fr : frame) : frame_text fr = concat_lines (spec_lines fr).
Proof. unfold frame_text, spec_lines. by rewrite zip_with_format_line_spec. Qed.

End strings.

(** ** Running the monad *)

Section monad.

Context {A B : Type}.

Lemma bind_ok (m : M A) (f : A → M B) (w w' : world) (a : A) :
  m w = (Ok a, w') → (m ≫= f) w = f a w'.
Proof. unfold mbind, M_bind. by intros ->. Qed.

Lemma bind_raise (m : M A) (f : A → M B) (w w' : world) (e : exn) :
  m w = (Raise e, w') → (m ≫= f) w = (Raise e, w').
Proof. unfold mbind, M_bind. by intros ->. Qed.

Lemma bind_lift_ok (o : outcome A) (f : A → M B) (w : world) (a : A) :
  o = Ok a → (lift o ≫= f) w = f a w.
Proof. by intros ->. Qed.

Lemma bind_lift_raise (o : outcome A) (f : A → M B) (w : world) (e : exn) :
  o = Raise e → (lift o ≫= f) w = (Raise e, w).
Proof. by intros ->. Qed.

Lemma bind_print (msg : string) (f : unit → M B) (w : world) :
  (print msg ≫= f) w = f tt (with_stdout (stdout w ++ [msg]) w).
Proof. done. Qed.

End monad.

Lemma ok_Some {A} (o : outcome A) (a : A) : ok o = Some a → o = Ok a.
Proof. destruct o; simpl; congruence. Qed.

(** What reading a record as a frame says of the record. *)
Lemma read_frame_Some (sample : pyval) (fr : frame) :
  read_frame sample = Some fr →
  ∃ bl sl boxes,
    py_getitem sample "frame_id" = Ok (fr_id fr)
    ∧ py_getitem sample "boxes_lidar" = Ok bl
    ∧ py_getitem sample "score" = Ok sl
    ∧ py_iter bl = Ok boxes
    ∧ py_iter sl = Ok (fr_scores fr)
    ∧ Forall2 (λ b f, unpack7 b = Ok f) boxes (fr_boxes fr).
Proof.
  unfold read_frame. intros Hread.
  destruct (py_getitem sample "frame_id") as [fid|] eqn:Hfid;
    simpl in Hread; [|done].
  destruct (py_getitem sample "boxes_lidar") as [bl|] eqn:Hbl;
    simpl in Hread; [|done].
  destruct (py_getitem sample "score") as [sl|] eqn:Hsl;
    simpl in Hread; [|done].
  destruct (py_iter bl) as [boxes|] eqn:Hboxes; simpl in Hread; [|done].
  destruct (py_iter sl) as [ss|] eqn:Hss; simpl in Hread; [|done].
  destruct (mapM _ boxes) as [fs|] eqn:Hfs; simpl in Hread; [|done].
  injection Hread as <-. exists bl, sl, boxes. repeat split; try done.
  apply mapM_Some in Hfs. eapply Forall2_impl; [exact Hfs |].
  intros b f. apply ok_Some.
Qed.

(** ** Runs on well-formed input *)

Section run_ok.

Variable output_dir : string.

Lemma box_log_cons (fid : pyval) (j n : nat) :
  box_log fid j (S n)
  = ("Written box " +:+ pretty j +:+ " for frame " +:+ py_format fid)
      :: box_log fid (S j) n.
Proof. done. Qed.

(** The inner loop appends the lines of the paired boxes to the open
    file, in order. *)
Lemma write_boxes_ok (path : string) (fid : pyval) (boxes : list pyval)
    (fs : list box_fields) :
  Forall2 (λ b f, unpack7 b = Ok f) boxes fs →
  ∀ (ss : list pyval) (j : nat) (w : world) (acc : string),
    files w !! path = Some (Text acc) →
    write_boxes path fid j (zip boxes ss) w
    = (Ok tt,
       World (<[path := Text (acc +:+ concat_lines (zip_with format_line fs ss))]>
                (files w))
             (dirs w)
             (stdout w ++ box_log fid j (List.length fs `min` List.length ss))
             (faults w) (unpickle w)).
Proof.
  induction 1 as [|b f boxes fs Hb _ IH]; intros ss j w acc Hacc.
  - simpl. unfold mret, M_ret. f_equal. destruct w as [fls ds out fl up]; simpl in *.
    rewrite append_nil_r, app_nil_r. by rewrite insert_id.
  - destruct ss as [|s ss].
    + simpl. unfold mret, M_ret. f_equal. destruct w as [fls ds out fl up]; simpl in *.
      rewrite append_nil_r, app_nil_r. by rewrite insert_id.
    + change (zip (b :: boxes) (s :: ss)) with ((b, s) :: zip boxes ss).
      cbn [write_boxes]. rewrite (bind_lift_ok _ _ _ f Hb).
      unfold file_write at 1. unfold mbind at 1, M_bind at 1.
      rewrite Hacc. cbn [text_of]. rewrite bind_print.
      rewrite (IH ss (S j) _ (acc +:+ format_line f s)); cbn.
      * f_equal. rewrite insert_insert_eq, concat_lines_cons, append_assoc.
        by rewrite <- app_assoc.
      * by rewrite lookup_insert_eq.
Qed.

(** One well-formed record: its file is created or replaced and holds the
    lines of the frame. *)
Lemma convert_sample_ok (sample : pyval) (fr : frame) (w : world) :
  read_frame sample = Some fr →
  no_faults w →
  convert_sample output_dir sample w
  = (Ok tt,
     World (<[frame_path output_dir fr := Text (frame_text fr)]> (files w))
           (dirs w)
           (stdout w ++ frame_log output_dir fr)
           (faults w) (unpickle w)).
Proof.
  intros (bl & sl & boxes & Hfid & Hbl & Hsl & Hboxes & Hss & Hun)%read_frame_Some Hfl.
  unfold convert_sample.
  rewrite (bind_lift_ok _ _ _ _ Hfid), (bind_lift_ok _ _ _ _ Hbl),
    (bind_lift_ok _ _ _ _ Hsl).
  rewrite bind_print.
  unfold open_w at 1. unfold mbind at 1, M_bind at 1.
  cbn [faults with_stdout]. rewrite Hfl.
  rewrite (bind_lift_ok _ _ _ _ Hboxes), (bind_lift_ok _ _ _ _ Hss).
  erewrite bind_ok; last first.
  { apply (write_boxes_ok _ _ _ _ Hun); cbn. apply lookup_insert_eq. }
  unfold print, with_stdout, frame_log, frame_path, frame_name, frame_text.
  cbn. f_equal. f_equal.
  - by rewrite insert_insert_eq, append_nil_l.
  - by rewrite <- !app_assoc.
Qed.

(** A list of well-formed records: the files of the frames, in order. *)
Lemma convert_samples_ok (samples : list pyval) (frs : list frame) :
  Forall2 (λ s fr, read_frame s = Some fr) samples frs →
  ∀ w : world,
    no_faults w →
    convert_samples output_dir samples w
    = (Ok tt,
       World (write_frames output_dir frs (files w))
             (dirs w)
             (stdout w ++ frames_log output_dir frs)
             (faults w) (unpickle w)).
Proof.
  induction 1 as [|s fr samples frs Hs _ IH]; intros w Hfl.
  - cbn. unfold mret, M_ret. destruct w; cbn. by rewrite app_nil_r.
  - cbn [convert_samples]. erewrite bind_ok; [| by apply convert_sample_ok].
    rewrite IH; [| done]. cbn. f_equal. f_equal.
    unfold frames_log. cbn. by rewrite <- app_assoc.
Qed.

End run_ok.

(** ** The whole run on a well-formed container *)

Section whole_run.

Variables pickle_file output_dir : string.

(** A value that can be iterated is true exactly when it has an item. *)
Lemma py_iter_truthy (data : pyval) (items : list pyval) :
  py_iter data = Ok items → truthy data = bool_decide (items ≠ []).
Proof.
  destruct data as [| | | |s|l|l|es]; simpl; intros [=]; subst; try done.
  - by destruct s.
  - by destruct es.
Qed.

Lemma read_result_set_Some (data : pyval) (frs : list frame) :
  read_result_set data = Some frs →
  ∃ samples, py_iter data = Ok samples
             ∧ Forall2 (λ s fr, read_frame s = Some fr) samples frs.
Proof.
  unfold read_result_set. intros Hread.
  destruct (py_iter data) as [samples|] eqn:Hit; simpl in Hread; [|done].
  exists samples. split; [done |]. by apply mapM_Some.
Qed.

(** Up to the loop: the container is loaded, the directory is made, and
    a container with records is not taken for an empty one. *)
Lemma body_loop (w : world) (data : pyval) (samples : list pyval) :
  files w !! pickle_file = Some (Pickled data) →
  faults w (OpRead pickle_file) = None →
  faults w (OpMkdir output_dir) = None →
  py_iter data = Ok samples →
  samples ≠ [] →
  pickle_to_txt_body pickle_file output_dir w
  = (convert_samples output_dir samples ≫= λ _, mret PyNone) (prepared pickle_file output_dir w).
Proof.
  intros Hfile Hrd Hmk Hit Hne.
  unfold pickle_to_txt_body. rewrite bind_print.
  unfold open_and_load at 1. unfold mbind at 1, M_bind at 1.
  cbn [faults files with_stdout]. rewrite Hrd, Hfile. cbn [pickle_load].
  rewrite bind_print.
  unfold makedirs at 1. unfold mbind at 1, M_bind at 1.
  cbn [faults with_stdout]. rewrite Hmk.
  rewrite (py_iter_truthy _ _ Hit).
  rewrite bool_decide_eq_true_2 by done. cbn [negb].
  rewrite (bind_lift_ok _ _ _ _ Hit).
  unfold prepared, with_dirs. cbn. by rewrite <- !app_assoc.
Qed.

Lemma body_ok (w : world) (data : pyval) (frs : list frame) :
  files w !! pickle_file = Some (Pickled data) →
  no_faults w →
  read_result_set data = Some frs →
  frs ≠ [] →
  pickle_to_txt_body pickle_file output_dir w = (Ok PyNone, converted pickle_file output_dir frs w).
Proof.
  intros Hfile Hfl (samples & Hit & Hfrs)%read_result_set_Some Hne.
  assert (samples ≠ []) as Hsne.
  { intros ->. apply Forall2_nil_inv_l in Hfrs. done. }
  rewrite (body_loop _ _ _ Hfile (Hfl _) (Hfl _) Hit Hsne).
  erewrite bind_ok; last first.
  { apply convert_samples_ok; [exact Hfrs | done]. }
  unfold mret, M_ret, converted, prepared. cbn. do 2 f_equal.
  by rewrite <- !app_assoc.
Qed.

Lemma try_except_ok {A} (body : M A) (handler : exn → M A) (w w' : world) (a : A) :
  body w = (Ok a, w') → try_except body handler w = (Ok a, w').
Proof. unfold try_except. by intros ->. Qed.

Lemma try_except_raise {A} (body : M A) (handler : exn → M A) (w w' : world)
    (e : exn) :
  body w = (Raise e, w') → try_except body handler w = handler e w'.
Proof. unfold try_except. by intros ->. Qed.

Lemma run_ok (w : world) (data : pyval) (frs : list frame) :
  files w !! pickle_file = Some (Pickled data) →
  no_faults w →
  read_result_set data = Some frs →
  frs ≠ [] →
  pickle_to_txt pickle_file output_dir w = (Ok PyNone, converted pickle_file output_dir frs w).
Proof.
  intros. unfold pickle_to_txt. apply try_except_ok. by eapply body_ok.
Qed.

End whole_run.

(** ** The files a list of frames leaves *)

Section write_frames.

Variable output_dir : string.

Lemma write_frames_cons (fr : frame) (frs : list frame) (m : gmap string file) :
  write_frames output_dir (fr :: frs) m
  = write_frames output_dir frs
      (<[frame_path output_dir fr := Text (frame_text fr)]> m).
Proof. done. Qed.

Lemma write_frames_snoc (frs : list frame) (fr : frame) (m : gmap string file) :
  write_frames output_dir (frs ++ [fr]) m
  = <[frame_path output_dir fr := Text (frame_text fr)]>
      (write_frames output_dir frs m).
Proof. unfold write_frames. by rewrite foldl_app. Qed.

(** A path that no frame of the list names is left as it was. *)
Lemma lookup_write_frames_other (frs : list frame) (m : gmap string file)
    (p : string) :
  Forall (λ fr, frame_path output_dir fr ≠ p) frs →
  write_frames output_dir frs m !! p = m !! p.
Proof.
  revert m. induction frs as [|fr frs IH]; intros m Hne; [done |].
  apply Forall_cons in Hne as [Hfr Hne].
  rewrite write_frames_cons, IH by done. by rewrite lookup_insert_ne.
Qed.

(** The last frame that names a path decides what the file holds. *)
Lemma lookup_write_frames_last (frs : list frame) (m : gmap string file)
    (i : nat) (fr : frame) :
  frs !! i = Some fr →
  (∀ k fr', i < k → frs !! k = Some fr' →
            frame_path output_dir fr' ≠ frame_path output_dir fr) →
  write_frames output_dir frs m !! frame_path output_dir fr
  = Some (Text (frame_text fr)).
Proof.
  revert m i. induction frs as [|fr0 frs IH]; intros m i Hi Hlater; [done |].
  rewrite write_frames_cons. destruct i as [|i]; simpl in Hi.
  - injection Hi as ->. rewrite lookup_write_frames_other.
    + apply lookup_insert_eq.
    + apply Forall_lookup. intros k fr' Hk. apply (Hlater (S k)); [lia | done].
  - apply (IH _ i); [done |]. intros k fr' Hik Hk.
    apply (Hlater (S k)); [lia | done].
Qed.

(** The files after the run: those named by the frames, and those that
    were there. *)
Lemma dom_write_frames (frs : list frame) (m : gmap string file) :
  dom (write_frames output_dir frs m)
  = list_to_set (frame_path output_dir <$> frs) ∪ dom m.
Proof.
  revert m. induction frs as [|fr frs IH]; intros m.
  - simpl. set_solver.
  - rewrite write_frames_cons, IH, dom_insert_L. simpl. set_solver.
Qed.

End write_frames.

(** ** Output lines and output path *)

Section lines.

Lemma spec_lines_length (fr : frame) :
  List.length (spec_lines fr)
  = List.length (fr_boxes fr) `min` List.length (fr_scores fr).
Proof. unfold spec_lines. apply length_zip_with. Qed.

Lemma spec_lines_lookup (fr : frame) (j : nat) (f : box_fields) (s : pyval) :
  fr_boxes fr !! j = Some f → fr_scores fr !! j = Some s →
  spec_lines fr !! j = Some (spec_line f s).
Proof.
  intros Hf Hs. unfold spec_lines. rewrite lookup_zip_with, Hf. simpl.
  by rewrite Hs.
Qed.

(** With a directory name that is not empty and has no trailing separator,
    and a file name that does not start with one, the joined path is the
    two names around one separator. *)
Lemma os_path_join_plain (a b : string) :
  a ≠ "" → ends_with_sep a = false → starts_with_sep b = false →
  os_path_join a b = a +:+ "/" +:+ b.
Proof.
  intros Ha He Hb. unfold os_path_join. rewrite Hb, He.
  by rewrite bool_decide_eq_false_2.
Qed.

Lemma starts_with_sep_txt (name : string) :
  starts_with_sep name = false → starts_with_sep (name +:+ ".txt") = false.
Proof. by destruct name. Qed.

(** The path of the file of a frame, written out. *)
Lemma frame_path_plain (output_dir : string) (fid : pyval) :
  output_dir ≠ "" → ends_with_sep output_dir = false →
  starts_with_sep (py_format fid) = false →
  os_path_join output_dir (py_format fid +:+ ".txt")
  = output_dir +:+ "/" +:+ py_format fid +:+ ".txt".
Proof.
  intros Ha He Hb. apply os_path_join_plain; [done | done |].
  by apply starts_with_sep_txt.
Qed.

End lines.

(** ** C1: the file of a frame *)

Example scenario_run :
  pickle_to_txt "result.pkl" "out/" scenario_world
  = (Ok PyNone,
     World {["out/000001.txt" := Text ("1.0 2.0 3.0 4.0 5.0 6.0 0.1 0.87" +:+ nl);
             "result.pkl" := Pickled (PyList [scenario_frame])]}
           {["out/"]}
           ["Loading pickle file: result.pkl";
            "Creating output directory: out/";
            "Writing to file: out/000001.txt";
            "Written box 0 for frame 000001";
            "Completed writing for frame 000001"]
           calm not_a_pickle).
Proof. vm_compute. reflexivity. Qed.

(** C1, as the code has it.  For a frame whose boxes and scores have the
    same length, the run
    leaves at the path joined from the output directory and
    [<frame_id>.txt] a file with one line per box, in the order of the
    boxes; the line of box (x, y, z, length, width, height, rotation) with
    score s is the eight text forms separated by single spaces and ended
    by a newline.  The container is well formed, the environment injects
    no failure, and no later frame names the same file.  The joined path
    is [output_dir/<frame_id>.txt] when the directory name is not empty
    and has no trailing separator and the identifier starts with none. *)
Theorem C1_frame_file_lines (pickle_file output_dir : string) (w : world)
    (data : pyval) (frs : list frame) (i : nat) (fr : frame) :
  files w !! pickle_file = Some (Pickled data) →
  no_faults w →
  read_result_set data = Some frs →
  frs !! i = Some fr →
  List.length (fr_boxes fr) = List.length (fr_scores fr) →
  (∀ k fr', i < k → frs !! k = Some fr' →
            frame_path output_dir fr' ≠ frame_path output_dir fr) →
  ∃ (w' : world) (lines : list string),
    pickle_to_txt pickle_file output_dir w = (Ok PyNone, w')
    ∧ files w' !! os_path_join output_dir (py_format (fr_id fr) +:+ ".txt")
      = Some (Text (concat_lines lines))
    ∧ List.length lines = List.length (fr_boxes fr)
    ∧ (∀ j x y z length width height rotation s,
         fr_boxes fr !! j = Some (x, y, z, length, width, height, rotation) →
         fr_scores fr !! j = Some s →
         lines !! j
         = Some (py_format x +:+ " " +:+ py_format y +:+ " " +:+ py_format z
                 +:+ " " +:+ py_format length +:+ " " +:+ py_format width
                 +:+ " " +:+ py_format height +:+ " " +:+ py_format rotation
                 +:+ " " +:+ py_format s +:+ nl))
    ∧ (output_dir ≠ "" → ends_with_sep output_dir = false →
       starts_with_sep (py_format (fr_id fr)) = false →
       os_path_join output_dir (py_format (fr_id fr) +:+ ".txt")
       = output_dir +:+ "/" +:+ py_format (fr_id fr) +:+ ".txt").
Proof.
  intros Hfile Hfl Hread Hi Hlen Hlast.
  exists (converted pickle_file output_dir frs w), (spec_lines fr).
  split; [| split; [| split; [| split; [| apply frame_path_plain]]]].
  - apply (run_ok _ _ _ data); try done. by intros ->.
  - cbn [converted files]. rewrite <- frame_text_spec.
    by apply (lookup_write_frames_last _ _ _ i).
  - rewrite spec_lines_length. lia.
  - intros j x y z l wd h r s Hb Hs.
    rewrite (spec_lines_lookup _ _ _ _ Hb Hs). f_equal.
    by rewrite <- format_line_spec.
Qed.

Lemma C1_frame_file_lines_witness :
  ∃ (w' : world) (lines : list string),
    pickle_to_txt "result.pkl" "out/" scenario_world = (Ok PyNone, w')
    ∧ files w' !! "out/000001.txt" = Some (Text (concat_lines lines))
    ∧ List.length lines = 1
    ∧ (∀ j x y z length width height rotation s,
         fr_boxes scenario_model !! j
         = Some (x, y, z, length, width, height, rotation) →
         fr_scores scenario_model !! j = Some s →
         lines !! j
         = Some (py_format x +:+ " " +:+ py_format y +:+ " " +:+ py_format z
                 +:+ " " +:+ py_format length +:+ " " +:+ py_format width
                 +:+ " " +:+ py_format height +:+ " " +:+ py_format rotation
                 +:+ " " +:+ py_format s +:+ nl))
    ∧ ("out/" ≠ "" → ends_with_sep "out/" = false →
       starts_with_sep (py_format (fr_id scenario_model)) = false →
       os_path_join "out/" (py_format (fr_id scenario_model) +:+ ".txt")
       = "out/" +:+ "/" +:+ py_format (fr_id scenario_model) +:+ ".txt").
Proof.
  apply (C1_frame_file_lines "result.pkl" "out/" scenario_world
           (PyList [scenario_frame]) [scenario_model] 0 scenario_model).
  - reflexivity.
  - intros op. reflexivity.
  - reflexivity.
  - reflexivity.
  - reflexivity.
  - intros k fr' Hk Hfr'. destruct k as [|k]; [lia | discriminate Hfr'].
Defined.

(** ** C3: boxes and scores of different lengths *)

(** With two boxes and one score the [try] block ends without an
    exception, nothing is reported, and the file holds the line of the
    first box only. *)
Lemma C3_counterexample :
  pickle_to_txt_body "result.pkl" "out" lopsided_world
  = pickle_to_txt "result.pkl" "out" lopsided_world
  ∧ pickle_to_txt "result.pkl" "out" lopsided_world
    = (Ok PyNone,
       World {["out/f.txt" := Text ("1 2 3 4 5 6 7 0.9" +:+ nl);
               "result.pkl" := Pickled (PyList [lopsided_frame])]}
             {["out"]}
             ["Loading pickle file: result.pkl";
              "Creating output directory: out";
              "Writing to file: out/f.txt";
              "Written box 0 for frame f";
              "Completed writing for frame f"]
             calm not_a_pickle).
Proof. split; vm_compute; reflexivity. Qed.

(** C3, as the code has it.  When the boxes and the scores of a frame
    differ in length the run does not fail: no exception is raised in the
    [try] block, nothing is reported, and the file of the frame holds the
    lines of the first [min (len boxes) (len scores)] boxes, each with the
    score of the same index. *)
Theorem C3_pairs_up_to_the_shorter (pickle_file output_dir : string) (w : world)
    (data : pyval) (frs : list frame) (i : nat) (fr : frame) :
  files w !! pickle_file = Some (Pickled data) →
  no_faults w →
  read_result_set data = Some frs →
  frs !! i = Some fr →
  List.length (fr_boxes fr) ≠ List.length (fr_scores fr) →
  (∀ k fr', i < k → frs !! k = Some fr' →
            frame_path output_dir fr' ≠ frame_path output_dir fr) →
  ∃ w' : world,
    pickle_to_txt_body pickle_file output_dir w = (Ok PyNone, w')
    ∧ pickle_to_txt pickle_file output_dir w = (Ok PyNone, w')
    ∧ stdout w' = (stdout w
                   ++ ["Loading pickle file: " +:+ pickle_file;
                       "Creating output directory: " +:+ output_dir]
                   ++ frames_log output_dir frs)%list
    ∧ files w' !! frame_path output_dir fr
      = Some (Text (concat_lines (spec_lines fr)))
    ∧ List.length (spec_lines fr)
      = List.length (fr_boxes fr) `min` List.length (fr_scores fr)
    ∧ ∀ j f s, fr_boxes fr !! j = Some f → fr_scores fr !! j = Some s →
               spec_lines fr !! j = Some (spec_line f s).
Proof.
  intros Hfile Hfl Hread Hi _ Hlast.
  assert (frs ≠ []) as Hne by (by intros ->).
  exists (converted pickle_file output_dir frs w).
  split; [by apply (body_ok _ _ _ data) |].
  split; [by apply (run_ok _ _ _ data) |].
  split; [done |].
  split; [| split].
  - cbn [converted files]. rewrite <- frame_text_spec.
    by apply (lookup_write_frames_last _ _ _ i).
  - apply spec_lines_length.
  - intros j f s. apply spec_lines_lookup.
Qed.

Lemma C3_pairs_up_to_the_shorter_witness :
  ∃ w' : world,
    pickle_to_txt_body "result.pkl" "out" lopsided_world = (Ok PyNone, w')
    ∧ pickle_to_txt "result.pkl" "out" lopsided_world = (Ok PyNone, w')
    ∧ stdout w' = (stdout lopsided_world
                   ++ ["Loading pickle file: " +:+ "result.pkl";
                       "Creating output directory: " +:+ "out"]
                   ++ frames_log "out" [lopsided_model])%list
    ∧ files w' !! frame_path "out" lopsided_model
      = Some (Text (concat_lines (spec_lines lopsided_model)))
    ∧ List.length (spec_lines lopsided_model)
      = List.length (fr_boxes lopsided_model)
        `min` List.length (fr_scores lopsided_model)
    ∧ ∀ j f s, fr_boxes lopsided_model !! j = Some f →
               fr_scores lopsided_model !! j = Some s →
               spec_lines lopsided_model !! j = Some (spec_line f s).
Proof.
  apply (C3_pairs_up_to_the_shorter "result.pkl" "out" lopsided_world
           (PyList [lopsided_frame]) [lopsided_model] 0 lopsided_model).
  - reflexivity.
  - intros op. reflexivity.
  - reflexivity.
  - reflexivity.
  - simpl. lia.
  - intros k fr' Hk Hfr'. destruct k as [|k]; [lia | discriminate Hfr'].
Defined.

(** ** C4 and C5: the value returned and the error boundary *)

Section boundary.

Context {A B : Type}.

Lemma bind_Ok_inv (m : M A) (f : A → M B) (w w' : world) (b : B) :
  (m ≫= f) w = (Ok b, w') →
  ∃ a w1, m w = (Ok a, w1) ∧ f a w1 = (Ok b, w').
Proof.
  unfold mbind, M_bind. destruct (m w) as [[a|e] w1]; [eauto | done].
Qed.

End boundary.

(** The [try] block has no other value than [None]. *)
Lemma body_value (pickle_file output_dir : string) (w w' : world) (v : pyval) :
  pickle_to_txt_body pickle_file output_dir w = (Ok v, w') → v = PyNone.
Proof.
  unfold pickle_to_txt_body.
  intros (_ & w1 & _ & H)%bind_Ok_inv.
  apply bind_Ok_inv in H as (data & w2 & _ & H).
  apply bind_Ok_inv in H as (_ & w3 & _ & H).
  apply bind_Ok_inv in H as (_ & w4 & _ & H).
  destruct (negb (truthy data)).
  - apply bind_Ok_inv in H as (_ & w5 & _ & H). by injection H as <- _.
  - apply bind_Ok_inv in H as (samples & w5 & _ & H).
    apply bind_Ok_inv in H as (_ & w6 & _ & H). by injection H as <- _.
Qed.

(** The routine never raises and its value is [None]; the world it leaves
    is that of the [try] block, with one more console line when the block
    raised. *)
Lemma pickle_to_txt_cases (pickle_file output_dir : string) (w : world) :
  ∃ w' : world,
    pickle_to_txt pickle_file output_dir w = (Ok PyNone, w')
    ∧ match pickle_to_txt_body pickle_file output_dir w with
      | (Ok _, w0) => w' = w0
      | (Raise e, w0) =>
          w' = with_stdout
                 (stdout w0 ++ ["An error occurred: " +:+ exn_str e])%list w0
      end.
Proof.
  unfold pickle_to_txt, try_except.
  destruct (pickle_to_txt_body pickle_file output_dir w) as [[v|e] w0] eqn:Hbody.
  - apply body_value in Hbody as ->. by exists w0.
  - by eexists.
Qed.

(** One frame is converted, one file is written, and the value returned is
    [None], not the count 1. *)
Lemma C4_counterexample :
  (pickle_to_txt "result.pkl" "out/" scenario_world).1 = Ok PyNone
  ∧ (pickle_to_txt "result.pkl" "out/" scenario_world).1 ≠ Ok (PyInt 1)
  ∧ dom (files (pickle_to_txt "result.pkl" "out/" scenario_world).2)
      ∖ dom (files scenario_world)
    = {["out/000001.txt"]}.
Proof.
  rewrite scenario_run. split; [done |]. split; [done |].
  vm_compute. reflexivity.
Qed.

(** C4, as the code has it.  On every input the routine returns [None] to
    its caller; it returns no count of frames or files. *)
Theorem C4_returns_none (pickle_file output_dir : string) (w : world) :
  (pickle_to_txt pickle_file output_dir w).1 = Ok PyNone.
Proof.
  destruct (pickle_to_txt_cases pickle_file output_dir w) as (w' & -> & _).
  done.
Qed.


(** The failures the specification lists, each caught and printed. *)
Example missing_source :
  pickle_to_txt "nothing.pkl" "out" scenario_world
  = (Ok PyNone,
     World (files scenario_world) ∅
           ["Loading pickle file: nothing.pkl";
            "An error occurred: [Errno 2] No such file or directory: 'nothing.pkl'"]
           calm not_a_pickle).
Proof. vm_compute. reflexivity. Qed.

Example source_is_no_pickle :
  pickle_to_txt "notes.txt" "out"
    (World {["notes.txt" := Text "hello"]} ∅ [] calm not_a_pickle)
  = (Ok PyNone,
     World {["notes.txt" := Text "hello"]} ∅
           ["Loading pickle file: notes.txt";
            "An error occurred: invalid load key"]
           calm not_a_pickle).
Proof. vm_compute. reflexivity. Qed.

Example record_is_no_dict :
  stdout (pickle_to_txt "result.pkl" "out"
            (World {["result.pkl" := Pickled (PyList [PyInt 3])]} ∅ [] calm not_a_pickle)).2
  = ["Loading pickle file: result.pkl";
     "Creating output directory: out";
     "An error occurred: 'int' object is not subscriptable"].
Proof. vm_compute. reflexivity. Qed.

Example output_not_writable :
  pickle_to_txt "result.pkl" "out/"
    (World (files scenario_world) ∅ [] (read_only "out/000001.txt") not_a_pickle)
  = (Ok PyNone,
     World (files scenario_world) {["out/"]}
           ["Loading pickle file: result.pkl";
            "Creating output directory: out/";
            "Writing to file: out/000001.txt";
            "An error occurred: [Errno 13] Permission denied: 'out/000001.txt'"]
           (read_only "out/000001.txt") not_a_pickle).
Proof. vm_compute. reflexivity. Qed.

(** ** C6: the empty container *)

(** C6. For a container with no frame, when the source can be read and
    the directory can be made: no file is created or changed, the output
    directory is created, no exception is raised and nothing is reported;
    the console says that no data was found. *)
Theorem C6_empty_result_set (pickle_file output_dir : string) (w : world)
    (data : pyval) :
  files w !! pickle_file = Some (Pickled data) →
  read_result_set data = Some [] →
  faults w (OpRead pickle_file) = None →
  faults w (OpMkdir output_dir) = None →
  ∃ w' : world,
    pickle_to_txt_body pickle_file output_dir w = (Ok PyNone, w')
    ∧ pickle_to_txt pickle_file output_dir w = (Ok PyNone, w')
    ∧ files w' = files w
    ∧ dirs w' = {[output_dir]} ∪ dirs w
    ∧ stdout w' = (stdout w
                   ++ ["Loading pickle file: " +:+ pickle_file;
                       "Creating output directory: " +:+ output_dir;
                       "No data found in pickle file."])%list.
Proof.
  intros Hfile (samples & Hit & Hfrs)%read_result_set_Some Hrd Hmk.
  apply Forall2_nil_inv_r in Hfrs as ->.
  assert (pickle_to_txt_body pickle_file output_dir w
          = (Ok PyNone,
             World (files w) ({[output_dir]} ∪ dirs w)
                   (stdout w
                    ++ ["Loading pickle file: " +:+ pickle_file;
                        "Creating output directory: " +:+ output_dir;
                        "No data found in pickle file."])
                   (faults w) (unpickle w))) as Hbody.
  { unfold pickle_to_txt_body. rewrite bind_print.
    unfold open_and_load at 1. unfold mbind at 1, M_bind at 1.
    cbn [faults files with_stdout]. rewrite Hrd, Hfile. cbn [pickle_load].
    rewrite bind_print.
    unfold makedirs at 1. unfold mbind at 1, M_bind at 1.
    cbn [faults with_stdout]. rewrite Hmk.
    rewrite (py_iter_truthy _ _ Hit).
    rewrite bool_decide_eq_false_2 by (intros Hne; by apply Hne).
    cbn [negb]. rewrite bind_print. unfold mret, M_ret, with_dirs. cbn.
    by rewrite <- !app_assoc. }
  eexists. split; [exact Hbody |].
  split; [| done].
  unfold pickle_to_txt. by apply try_except_ok.
Qed.

Lemma C6_empty_result_set_witness :
  ∃ w' : world,
    pickle_to_txt_body "result.pkl" "out" empty_world = (Ok PyNone, w')
    ∧ pickle_to_txt "result.pkl" "out" empty_world = (Ok PyNone, w')
    ∧ files w' = files empty_world
    ∧ dirs w' = {["out"]} ∪ dirs empty_world
    ∧ stdout w' = (stdout empty_world
                   ++ ["Loading pickle file: " +:+ "result.pkl";
                       "Creating output directory: " +:+ "out";
                       "No data found in pickle file."])%list.
Proof.
  apply (C6_empty_result_set "result.pkl" "out" empty_world (PyList []));
    reflexivity.
Defined.

(** ** C7 and C10: a record that stops the run *)

Section abort.

Variables pickle_file output_dir : string.

(** Once the records of a first part are converted the loop goes on with
    the rest. *)
Lemma convert_samples_app (before rest : list pyval) :
  ∀ w w1 : world,
    convert_samples output_dir before w = (Ok tt, w1) →
    convert_samples output_dir (before ++ rest) w
    = convert_samples output_dir rest w1.
Proof.
  induction before as [|s before IH]; intros w w1 Hrun.
  - by injection Hrun as <-.
  - cbn [convert_samples] in Hrun.
    apply bind_Ok_inv in Hrun as (a & w0 & Hs & Hrun).
    rewrite <- app_comm_cons. cbn [convert_samples].
    rewrite (bind_ok _ _ _ _ _ Hs). by apply IH.
Qed.

(** A run that gets through the records [before], whose frames are [frs],
    and stops with [e] at the next record, having reached [stopped]. *)
Lemma body_stops_at (w stopped : world) (data : pyval)
    (before after : list pyval) (bad : pyval) (frs : list frame) (e : exn) :
  files w !! pickle_file = Some (Pickled data) →
  no_faults w →
  py_iter data = Ok (before ++ bad :: after) →
  mapM read_frame before = Some frs →
  convert_sample output_dir bad (converted pickle_file output_dir frs w)
  = (Raise e, stopped) →
  pickle_to_txt_body pickle_file output_dir w = (Raise e, stopped)
  ∧ pickle_to_txt pickle_file output_dir w
    = (Ok PyNone,
       with_stdout (stdout stopped ++ ["An error occurred: " +:+ exn_str e])
                   stopped).
Proof.
  intros Hfile Hfl Hit Hfrs%mapM_Some Hbad.
  assert (pickle_to_txt_body pickle_file output_dir w = (Raise e, stopped))
    as Hbody.
  { rewrite (body_loop _ _ _ _ _ Hfile (Hfl _) (Hfl _) Hit)
      by (by destruct before).
    apply bind_raise.
    rewrite (convert_samples_app _ _ _
               (converted pickle_file output_dir frs w)).
    - cbn [convert_samples]. by apply bind_raise.
    - rewrite (convert_samples_ok _ _ _ Hfrs) by done.
      unfold converted, prepared. cbn. do 2 f_equal.
      by rewrite <- !app_assoc. }
  split; [done |].
  unfold pickle_to_txt. by rewrite (try_except_raise _ _ _ _ _ Hbody).
Qed.

End abort.

(** ** C7: a record without one of the three fields *)

Section missing_field.

Variables pickle_file output_dir : string.

Lemma first_missing_Some (entries : list (string * pyval)) (field : string) :
  field ∈ required_fields → dict_get entries field = None →
  ∃ key, first_missing entries = Some key.
Proof.
  unfold required_fields, first_missing. intros Hin Hnone.
  destruct (dict_get entries "frame_id") eqn:H1; [| by eexists].
  destruct (dict_get entries "boxes_lidar") eqn:H2; [| by eexists].
  destruct (dict_get entries "score") eqn:H3; [| by eexists].
  set_solver.
Qed.

Lemma first_missing_spec (entries : list (string * pyval)) (key : string) :
  first_missing entries = Some key →
  key ∈ required_fields ∧ dict_get entries key = None.
Proof.
  unfold required_fields, first_missing.
  destruct (dict_get entries "frame_id") eqn:H1;
    [| intros [= <-]; split; [set_solver | done]].
  destruct (dict_get entries "boxes_lidar") eqn:H2;
    [| intros [= <-]; split; [set_solver | done]].
  destruct (dict_get entries "score") eqn:H3;
    [| intros [= <-]; split; [set_solver | done]].
  done.
Qed.

(** The record stops the loop at the first field it lacks, before any
    file is opened. *)
Lemma convert_sample_missing (entries : list (string * pyval)) (key : string)
    (w : world) :
  first_missing entries = Some key →
  convert_sample output_dir (PyDict entries) w = (Raise (KeyError key), w).
Proof.
  unfold first_missing, convert_sample. cbn [py_getitem].
  destruct (dict_get entries "frame_id") eqn:H1; [| by intros [= <-]].
  destruct (dict_get entries "boxes_lidar") eqn:H2; [| by intros [= <-]].
  destruct (dict_get entries "score") eqn:H3; [| by intros [= <-]].
  done.
Qed.

(** C7. When the records before it are converted without failure, a
    record that lacks [frame_id], [boxes_lidar] or [score] stops the run:
    the [try] block raises [KeyError] for the first field that is missing,
    the handler prints it, the files of the records before it are written,
    and neither the record nor any record after it adds a file or a
    console line. *)
Theorem C7_missing_field_aborts (w : world) (data : pyval)
    (before after : list pyval) (entries : list (string * pyval))
    (frs : list frame) (field : string) :
  files w !! pickle_file = Some (Pickled data) →
  no_faults w →
  py_iter data = Ok (before ++ PyDict entries :: after) →
  mapM read_frame before = Some frs →
  field ∈ required_fields →
  dict_get entries field = None →
  ∃ (key : string) (w0 : world),
    first_missing entries = Some key
    ∧ pickle_to_txt_body pickle_file output_dir w = (Raise (KeyError key), w0)
    ∧ pickle_to_txt pickle_file output_dir w
      = (Ok PyNone,
         with_stdout (stdout w0 ++ ["An error occurred: " +:+ repr_str key]) w0)
    ∧ files w0 = write_frames output_dir frs (files w)
    ∧ stdout w0 = stdout w
                  ++ ["Loading pickle file: " +:+ pickle_file;
                      "Creating output directory: " +:+ output_dir]
                  ++ frames_log output_dir frs.
Proof.
  intros Hfile Hfl Hit Hfrs Hin Hnone.
  destruct (first_missing_Some _ _ Hin Hnone) as [key Hkey].
  exists key, (converted pickle_file output_dir frs w).
  split; [done |].
  destruct (body_stops_at pickle_file output_dir w
              (converted pickle_file output_dir frs w) data before after
              (PyDict entries) frs (KeyError key)) as [Hbody Hrun]; try done.
  by apply convert_sample_missing.
Qed.

End missing_field.

Lemma C7_missing_field_aborts_witness :
  ∃ (key : string) (w0 : world),
    first_missing [("frame_id", PyInt 7)] = Some key
    ∧ pickle_to_txt_body "result.pkl" "out" broken_world
      = (Raise (KeyError key), w0)
    ∧ pickle_to_txt "result.pkl" "out" broken_world
      = (Ok PyNone,
         with_stdout (stdout w0 ++ ["An error occurred: " +:+ repr_str key]) w0)
    ∧ files w0 = write_frames "out" [scenario_model] (files broken_world)
    ∧ stdout w0 = stdout broken_world
                  ++ ["Loading pickle file: " +:+ "result.pkl";
                      "Creating output directory: " +:+ "out"]
                  ++ frames_log "out" [scenario_model].
Proof.
  apply (C7_missing_field_aborts "result.pkl" "out" broken_world
           (PyList [scenario_frame; PyDict [("frame_id", PyInt 7)]; scenario_frame])
           [scenario_frame] [scenario_frame] [("frame_id", PyInt 7)]
           [scenario_model] "score").
  - reflexivity.
  - intros op. reflexivity.
  - reflexivity.
  - reflexivity.
  - unfold required_fields. set_solver.
  - reflexivity.
Defined.

(** ** C10: a box that does not have seven items *)

Section short_box.

Variables pickle_file output_dir : string.

Lemma unpack7_wrong_length (box : pyval) (items : list pyval) :
  py_iter box = Ok items → List.length items ≠ 7 →
  unpack7 box = Raise (ValueError (wrong_length_message (List.length items))).
Proof.
  intros Hit Hlen. unfold unpack7, wrong_length_message. rewrite Hit.
  destruct items as [|a [|b [|c [|d [|e [|f [|g [|h t]]]]]]]];
    cbn [List.length] in *; try done; case_decide; try done; lia.
Qed.

(** The inner loop up to a box that cannot be unpacked: the lines of the
    boxes before it are in the file. *)
Lemma write_boxes_stops (path : string) (fid : pyval) (good : list pyval)
    (fs : list box_fields) (box : pyval) (rest : list pyval) (e : exn) :
  Forall2 (λ b f, unpack7 b = Ok f) good fs →
  unpack7 box = Raise e →
  ∀ (ss : list pyval) (j : nat) (w : world) (acc : string),
    List.length good < List.length ss →
    files w !! path = Some (Text acc) →
    write_boxes path fid j (zip (good ++ box :: rest) ss) w
    = (Raise e,
       World (<[path := Text (acc +:+ concat_lines (zip_with format_line fs ss))]>
                (files w))
             (dirs w)
             (stdout w ++ box_log fid j (List.length fs))
             (faults w) (unpickle w)).
Proof.
  intros Hgood Hbox.
  induction Hgood as [|b f good fs Hb _ IH]; intros ss j w acc Hlen Hacc;
    (destruct ss as [|s ss]; [cbn [List.length] in Hlen; lia |]).
  - cbn [app zip zip_with write_boxes].
    rewrite (bind_lift_raise _ _ _ _ Hbox). f_equal.
    destruct w as [fls ds out fl up]; cbn in *.
    rewrite append_nil_r, app_nil_r. by rewrite insert_id.
  - rewrite <- app_comm_cons.
    change (zip (b :: good ++ box :: rest) (s :: ss))
      with ((b, s) :: zip (good ++ box :: rest) ss).
    cbn [write_boxes]. rewrite (bind_lift_ok _ _ _ f Hb).
    unfold file_write at 1. unfold mbind at 1, M_bind at 1.
    rewrite Hacc. cbn [text_of]. rewrite bind_print.
    rewrite (IH ss (S j) _ (acc +:+ format_line f s)); cbn.
    + f_equal. rewrite insert_insert_eq, concat_lines_cons, append_assoc.
      by rewrite <- app_assoc.
    + cbn [List.length] in Hlen. lia.
    + by rewrite lookup_insert_eq.
Qed.

(** C10, as the code has it.  When the records before it are converted
    without failure, the
    three fields of a record are there, and one of its boxes that is
    paired with a score has a number of items other than seven while the
    boxes before it have seven, the run stops at that box: the file of the
    record holds the lines of the boxes before it, the [try] block raises
    the [ValueError] of the unpacking, and the handler prints its message;
    the routine returns [None]. *)
Theorem C10_short_box_aborts (w : world) (data : pyval)
    (before after : list pyval) (frs : list frame) (bad fid bl sl : pyval)
    (good rest ss items : list pyval) (fs : list box_fields) (box : pyval) :
  files w !! pickle_file = Some (Pickled data) →
  no_faults w →
  py_iter data = Ok (before ++ bad :: after) →
  mapM read_frame before = Some frs →
  py_getitem bad "frame_id" = Ok fid →
  py_getitem bad "boxes_lidar" = Ok bl →
  py_getitem bad "score" = Ok sl →
  py_iter bl = Ok (good ++ box :: rest) →
  py_iter sl = Ok ss →
  mapM (λ b, ok (unpack7 b)) good = Some fs →
  py_iter box = Ok items →
  List.length items ≠ 7 →
  List.length good < List.length ss →
  ∃ w0 : world,
    pickle_to_txt_body pickle_file output_dir w
    = (Raise (ValueError (wrong_length_message (List.length items))), w0)
    ∧ pickle_to_txt pickle_file output_dir w
      = (Ok PyNone,
         with_stdout
           (stdout w0 ++ ["An error occurred: "
                          +:+ wrong_length_message (List.length items)]) w0)
    ∧ files w0
      = <[os_path_join output_dir (py_format fid +:+ ".txt")
          := Text (concat_lines (zip_with spec_line fs ss))]>
          (write_frames output_dir frs (files w))
    ∧ List.length (zip_with spec_line fs ss) = List.length good.
Proof.
  intros Hfile Hfl Hit Hfrs Hfid Hbl Hsl Hboxes Hss Hgood Hitems Hlen Hpaired.
  apply mapM_Some in Hgood.
  assert (Forall2 (λ b f, unpack7 b = Ok f) good fs) as Hun.
  { eapply Forall2_impl; [exact Hgood |]. intros b f. apply ok_Some. }
  pose proof (unpack7_wrong_length _ _ Hitems Hlen) as Hbox.
  set (path := os_path_join output_dir (py_format fid +:+ ".txt")).
  set (W := converted pickle_file output_dir frs w).
  assert (no_faults W) as HflW by (intros op; apply Hfl).
  assert (convert_sample output_dir bad W
          = (Raise (ValueError (wrong_length_message (List.length items))),
             World (<[path := Text (concat_lines (zip_with format_line fs ss))]>
                      (files W))
                   (dirs W)
                   ((stdout W ++ ["Writing to file: " +:+ path])
                    ++ box_log fid 0 (List.length fs))
                   (faults W) (unpickle W))) as Hbad.
  { unfold convert_sample.
    rewrite (bind_lift_ok _ _ _ _ Hfid), (bind_lift_ok _ _ _ _ Hbl),
      (bind_lift_ok _ _ _ _ Hsl).
    rewrite bind_print.
    unfold open_w at 1. unfold mbind at 1, M_bind at 1.
    cbn [faults with_stdout]. rewrite HflW.
    rewrite (bind_lift_ok _ _ _ _ Hboxes), (bind_lift_ok _ _ _ _ Hss).
    erewrite bind_raise; last first.
    { apply (write_boxes_stops _ _ _ _ _ _ _ Hun Hbox); cbn;
        [done |]. apply lookup_insert_eq. }
    cbn. do 2 f_equal. by rewrite insert_insert_eq, append_nil_l. }
  eexists.
  destruct (body_stops_at pickle_file output_dir w _ data before after bad frs _
              Hfile Hfl Hit Hfrs Hbad) as [Hbody Hrun].
  split; [exact Hbody |]. split; [exact Hrun |]. split.
  - cbn. by rewrite zip_with_format_line_spec.
  - rewrite length_zip_with. apply Forall2_length in Hun. lia.
Qed.

End short_box.

Lemma C10_short_box_aborts_witness :
  ∃ w0 : world,
    pickle_to_txt_body "result.pkl" "out" short_box_world
    = (Raise (ValueError
                (wrong_length_message (List.length (PyInt <$> [1; 2; 3]%Z)))),
       w0)
    ∧ pickle_to_txt "result.pkl" "out" short_box_world
      = (Ok PyNone,
         with_stdout
           (stdout w0
            ++ ["An error occurred: "
                +:+ wrong_length_message (List.length (PyInt <$> [1; 2; 3]%Z))])
           w0)
    ∧ files w0
      = <[os_path_join "out" (py_format (PyStr "g") +:+ ".txt")
          := Text (concat_lines
                     (zip_with spec_line
                        [(PyInt 1, PyInt 2, PyInt 3, PyInt 4, PyInt 5, PyInt 6,
                          PyInt 7)]
                        [PyFloat "0.9"; PyFloat "0.8"; PyFloat "0.7"]))]>
          (write_frames "out" [scenario_model] (files short_box_world))
    ∧ List.length
        (zip_with spec_line
           [(PyInt 1, PyInt 2, PyInt 3, PyInt 4, PyInt 5, PyInt 6, PyInt 7)]
           [PyFloat "0.9"; PyFloat "0.8"; PyFloat "0.7"])
      = List.length [PyList (PyInt <$> [1; 2; 3; 4; 5; 6; 7]%Z)].
Proof.
  apply (C10_short_box_aborts "result.pkl" "out" short_box_world
           (PyList [scenario_frame; short_box_frame; scenario_frame])
           [scenario_frame] [scenario_frame] [scenario_model]
           short_box_frame (PyStr "g")
           (PyList [PyList (PyInt <$> [1; 2; 3; 4; 5; 6; 7]%Z);
                    PyList (PyInt <$> [1; 2; 3]%Z);
                    PyList (PyInt <$> [8; 9; 10; 11; 12; 13; 14]%Z)])
           (PyList [PyFloat "0.9"; PyFloat "0.8"; PyFloat "0.7"])
           [PyList (PyInt <$> [1; 2; 3; 4; 5; 6; 7]%Z)]
           [PyList (PyInt <$> [8; 9; 10; 11; 12; 13; 14]%Z)]
           [PyFloat "0.9"; PyFloat "0.8"; PyFloat "0.7"]
           (PyInt <$> [1; 2; 3]%Z)
           [(PyInt 1, PyInt 2, PyInt 3, PyInt 4, PyInt 5, PyInt 6, PyInt 7)]
           (PyList (PyInt <$> [1; 2; 3]%Z))).
  - reflexivity.
  - intros op. reflexivity.
  - reflexivity.
  - reflexivity.
  - reflexivity.
  - reflexivity.
  - reflexivity.
  - reflexivity.
  - reflexivity.
  - reflexivity.
  - reflexivity.
  - simpl. lia.
  - simpl. lia.
Defined.

(** The pairing with a score is needed: [zip] never yields a box that has
    no score, so such a box is not unpacked and does not stop the run. *)
Example unpaired_short_box :
  pickle_to_txt_body "result.pkl" "out" unpaired_world
  = (Ok PyNone,
     World (<["out/h.txt" := Text ""]> (files unpaired_world)) {["out"]}
           ["Loading pickle file: result.pkl";
            "Creating output directory: out";
            "Writing to file: out/h.txt";
            "Completed writing for frame h"]
           calm not_a_pickle).
Proof. vm_compute. reflexivity. Qed.

(** ** C8: what a run does to the file system does not depend on what is
    there *)

Section effects.

Lemma text_files_empty : text_files ∅.
Proof. intros p f. by rewrite lookup_empty. Qed.

Lemma text_files_union (F G : gmap string file) :
  text_files F → text_files G → text_files (F ∪ G).
Proof.
  intros HF HG p f [Hp | [_ Hp]]%lookup_union_Some_raw; [by eapply HF | by eapply HG].
Qed.

Lemma text_files_singleton (p : string) (c : string) :
  text_files {[p := Text c]}.
Proof. intros q f [_ <-]%lookup_singleton_Some. by eexists. Qed.

Lemma world_same (w : world) :
  World (∅ ∪ files w) (∅ ∪ dirs w) (stdout w ++ []) (faults w) (unpickle w) = w.
Proof.
  destruct w as [fs ds out fl up]. cbn.
  by rewrite (left_id_L ∅ (∪) fs), (left_id_L ∅ (∪) ds), app_nil_r.
Qed.

Context {A B : Type}.

Lemma writes_only_raise (m : M A) (e : exn) :
  (∀ w, m w = (Raise e, w)) → writes_only m.
Proof.
  intros Hm fl. exists (Raise e), ∅, ∅, []. split; [apply text_files_empty |].
  intros w <-. by rewrite Hm, world_same.
Qed.

Lemma writes_only_ret (a : A) : writes_only (mret a : M A).
Proof.
  intros fl. exists (Ok a), ∅, ∅, []. split; [apply text_files_empty |].
  intros w <-. unfold mret, M_ret. by rewrite world_same.
Qed.

Lemma writes_only_lift (o : outcome A) : writes_only (lift o).
Proof.
  intros fl. exists o, ∅, ∅, []. split; [apply text_files_empty |].
  intros w <-. unfold lift. by rewrite world_same.
Qed.

Lemma writes_only_bind (m : M A) (f : A → M B) :
  writes_only m → (∀ a, writes_only (f a)) → writes_only (m ≫= f).
Proof.
  intros Hm Hf fl. destruct (Hm fl) as (r & F & D & out & HF & Hrun).
  destruct r as [a|e].
  - destruct (Hf a fl) as (r' & F' & D' & out' & HF' & Hrun').
    exists r', (F' ∪ F), (D' ∪ D), (out ++ out').
    split; [by apply text_files_union |].
    intros w Hw. rewrite (bind_ok _ _ _ _ _ (Hrun w Hw)).
    rewrite Hrun' by done. cbn.
    by rewrite !(assoc_L (∪)), app_assoc.
  - exists (Raise e), F, D, out. split; [done |].
    intros w Hw. by rewrite (bind_raise _ _ _ _ _ (Hrun w Hw)).
Qed.

Lemma appends_to_ret (path : string) (a : A) : appends_to path (mret a : M A).
Proof.
  intros fl. exists (Ok a), "", []. intros w acc <- Hacc.
  unfold mret, M_ret. destruct w as [fs ds out fl up]; cbn in *.
  by rewrite append_nil_r, app_nil_r, insert_id.
Qed.

Lemma appends_to_lift (path : string) (o : outcome A) : appends_to path (lift o).
Proof.
  intros fl. exists o, "", []. intros w acc <- Hacc.
  unfold lift. destruct w as [fs ds out fl up]; cbn in *.
  by rewrite append_nil_r, app_nil_r, insert_id.
Qed.

Lemma appends_to_bind (path : string) (m : M A) (f : A → M B) :
  appends_to path m → (∀ a, appends_to path (f a)) → appends_to path (m ≫= f).
Proof.
  intros Hm Hf fl. destruct (Hm fl) as (r & text & out & Hrun).
  destruct r as [a|e].
  - destruct (Hf a fl) as (r' & text' & out' & Hrun').
    exists r', (text +:+ text'), (out ++ out').
    intros w acc Hw Hacc. rewrite (bind_ok _ _ _ _ _ (Hrun w acc Hw Hacc)).
    rewrite (Hrun' _ (acc +:+ text)); cbn; [| done | apply lookup_insert_eq].
    by rewrite insert_insert_eq, append_assoc, app_assoc.
  - exists (Raise e), text, out.
    intros w acc Hw Hacc. by rewrite (bind_raise _ _ _ _ _ (Hrun w acc Hw Hacc)).
Qed.

End effects.

Section effects_of_the_routine.

Lemma writes_only_print (msg : string) : writes_only (print msg).
Proof.
  intros fl. exists (Ok tt), ∅, ∅, [msg]. split; [apply text_files_empty |].
  intros w <-. unfold print, with_stdout. cbn.
  by rewrite (left_id_L ∅ (∪) (files w)), (left_id_L ∅ (∪) (dirs w)).
Qed.

Lemma writes_only_makedirs (path : string) : writes_only (makedirs path).
Proof.
  intros fl. destruct (fl (OpMkdir path)) as [e|] eqn:Hop.
  - exists (Raise e), ∅, ∅, []. split; [apply text_files_empty |].
    intros w <-. unfold makedirs. by rewrite Hop, world_same.
  - exists (Ok tt), ∅, {[path]}, []. split; [apply text_files_empty |].
    intros w <-. unfold makedirs, with_dirs. rewrite Hop. cbn.
    by rewrite (left_id_L ∅ (∪) (files w)), app_nil_r.
Qed.

Lemma appends_to_print (path msg : string) : appends_to path (print msg).
Proof.
  intros fl. exists (Ok tt), "", [msg]. intros w acc <- Hacc.
  unfold print, with_stdout. cbn. by rewrite append_nil_r, insert_id.
Qed.

Lemma appends_to_file_write (path : string) (line : string) :
  appends_to path (file_write path line).
Proof.
  intros fl. exists (Ok tt), line, []. intros w acc <- Hacc.
  unfold file_write, with_files. rewrite Hacc. cbn. by rewrite app_nil_r.
Qed.

Lemma appends_to_write_boxes (path : string) (fid : pyval)
    (pairs : list (pyval * pyval)) (j : nat) :
  appends_to path (write_boxes path fid j pairs).
Proof.
  revert j. induction pairs as [|[box score] pairs IH]; intros j.
  - apply appends_to_ret.
  - cbn [write_boxes]. apply appends_to_bind; [apply appends_to_lift |].
    intros f. apply appends_to_bind; [apply appends_to_file_write |].
    intros _. apply appends_to_bind; [apply appends_to_print |].
    intros _. apply IH.
Qed.

(** Opening the file for writing forgets what it held: the file is what is
    appended after. *)
Lemma writes_only_open_w {A} (path : string) (m : M A) :
  appends_to path m → writes_only (open_w path ≫= λ _, m).
Proof.
  intros Hm fl. destruct (fl (OpOpen path)) as [e|] eqn:Hop.
  - exists (Raise e), ∅, ∅, []. split; [apply text_files_empty |].
    intros w <-. unfold mbind, M_bind, open_w. by rewrite Hop, world_same.
  - destruct (Hm fl) as (r & text & out & Hrun).
    exists r, {[path := Text text]}, ∅, out.
    split; [apply text_files_singleton |].
    intros w <-. unfold mbind, M_bind, open_w. rewrite Hop.
    rewrite (Hrun _ ""); cbn; [| done | apply lookup_insert_eq].
    rewrite insert_insert_eq, append_nil_l, insert_union_singleton_l.
    by rewrite (left_id_L ∅ (∪) (dirs w)).
Qed.

Lemma writes_only_convert_sample (output_dir : string) (sample : pyval) :
  writes_only (convert_sample output_dir sample).
Proof.
  unfold convert_sample.
  apply writes_only_bind; [apply writes_only_lift | intros fid].
  apply writes_only_bind; [apply writes_only_lift | intros bl].
  apply writes_only_bind; [apply writes_only_lift | intros sl].
  apply writes_only_bind; [apply writes_only_print | intros _].
  apply writes_only_open_w.
  apply appends_to_bind; [apply appends_to_lift | intros boxes].
  apply appends_to_bind; [apply appends_to_lift | intros ss].
  apply appends_to_bind; [apply appends_to_write_boxes | intros _].
  apply appends_to_print.
Qed.

Lemma writes_only_convert_samples (output_dir : string) (samples : list pyval) :
  writes_only (convert_samples output_dir samples).
Proof.
  induction samples as [|s samples IH]; [apply writes_only_ret |].
  cbn [convert_samples].
  apply writes_only_bind; [apply writes_only_convert_sample | by intros _].
Qed.

End effects_of_the_routine.

Section rerun.

Variables pickle_file output_dir : string.

Lemma open_and_load_world (w : world) :
  open_and_load pickle_file w = (load_result pickle_file w, w).
Proof.
  unfold load_result, open_and_load.
  destruct (faults w (OpRead pickle_file)); [done |].
  by destruct (files w !! pickle_file).
Qed.

Lemma load_result_ext (w v : world) :
  faults v = faults w → unpickle v = unpickle w →
  files v !! pickle_file = files w !! pickle_file →
  load_result pickle_file v = load_result pickle_file w.
Proof.
  intros Hfl Hup Hfile. unfold load_result, open_and_load.
  rewrite Hfl, Hup, Hfile.
  destruct (faults w (OpRead pickle_file)); [done |].
  by destruct (files w !! pickle_file).
Qed.

Lemma body_after_load (w : world) :
  pickle_to_txt_body pickle_file output_dir w
  = match load_result pickle_file w with
    | Ok data =>
        after_load output_dir data
          (with_stdout (stdout w ++ ["Loading pickle file: " +:+ pickle_file]) w)
    | Raise e =>
        (Raise e,
         with_stdout (stdout w ++ ["Loading pickle file: " +:+ pickle_file]) w)
    end.
Proof.
  unfold pickle_to_txt_body. rewrite bind_print.
  unfold mbind at 1, M_bind at 1.
  unfold load_result, open_and_load. cbn [faults files unpickle with_stdout].
  destruct (faults w (OpRead pickle_file)); [done |].
  destruct (files w !! pickle_file) as [f|]; [| done].
  cbn [fst]. by destruct (pickle_load (unpickle w) f).
Qed.

Lemma writes_only_after_load (data : pyval) :
  writes_only (after_load output_dir data).
Proof.
  unfold after_load.
  apply writes_only_bind; [apply writes_only_print | intros _].
  apply writes_only_bind; [apply writes_only_makedirs | intros _].
  destruct (negb (truthy data)).
  - apply writes_only_bind; [apply writes_only_print | intros _].
    apply writes_only_ret.
  - apply writes_only_bind; [apply writes_only_lift | intros samples].
    apply writes_only_bind; [apply writes_only_convert_samples | intros _].
    apply writes_only_ret.
Qed.

(** The files a run leaves, by what the source gave: nothing is written
    when it could not be loaded; otherwise text files, decided by the
    container and the injected failures, are laid over what was there. *)
Lemma run_files (fl : io_op → option exn) (o : outcome pyval) :
  ∃ F : gmap string file,
    text_files F
    ∧ (∀ e, o = Raise e → F = ∅)
    ∧ ∀ w, faults w = fl → load_result pickle_file w = o →
           faults (pickle_to_txt pickle_file output_dir w).2 = fl
           ∧ unpickle (pickle_to_txt pickle_file output_dir w).2 = unpickle w
           ∧ files (pickle_to_txt pickle_file output_dir w).2 = F ∪ files w.
Proof.
  destruct o as [data|e].
  - destruct (writes_only_after_load data fl) as (r & F & D & out & HF & Hrun).
    exists F. split; [done |]. split; [done |].
    intros w Hfl Hload. unfold pickle_to_txt, try_except.
    rewrite body_after_load, Hload, Hrun by done.
    by destruct r.
  - exists ∅. split; [apply text_files_empty |]. split; [done |].
    intros w Hfl Hload. unfold pickle_to_txt, try_except.
    rewrite body_after_load, Hload. cbn.
    by rewrite (left_id_L ∅ (∪) (files w)).
Qed.

End rerun.



(** ** Counting lines and files *)

Section counting.

Lemma count_lines_pretty_N_go (x : N) (s : string) :
  count_lines (pretty_N_go x s) = count_lines s.
Proof.
  revert s. induction (N.lt_wf_0 x) as [x _ IH]; intros s.
  destruct (decide (x = 0)%N) as [->|Hx]; [done |].
  rewrite pretty_N_go_step by lia.
  rewrite IH by (apply N.div_lt; lia).
  cbn [count_lines]. case_decide as Hc; [| done].
  unfold pretty_N_char in Hc. by repeat case_match.
Qed.

Lemma count_lines_pretty_Z (n : Z) : count_lines (pretty n) = 0.
Proof.
  unfold pretty, pretty_Z. destruct n as [|x|x]; [done | |].
  - unfold pretty, pretty_positive, pretty, pretty_N.
    case_decide; [done |]. by rewrite count_lines_pretty_N_go.
  - rewrite count_lines_app.
    unfold pretty, pretty_positive, pretty, pretty_N.
    case_decide; [done |]. by rewrite count_lines_pretty_N_go.
Qed.

Lemma count_lines_float_text (text : string) :
  all_chars float_char text = true → count_lines text = 0.
Proof.
  induction text as [|c text IH]; [done |].
  cbn [all_chars count_lines]. intros [Hc Htext]%andb_true_iff.
  rewrite IH by done. case_decide as Hnl; [| done].
  subst c. by vm_compute in Hc.
Qed.

Lemma count_lines_numeric (v : pyval) :
  numeric v = true → count_lines (py_format v) = 0.
Proof.
  destruct v; try done; cbn [numeric py_format py_repr].
  - intros _. apply count_lines_pretty_Z.
  - apply count_lines_float_text.
Qed.

Lemma count_lines_format_line (f : box_fields) (s : pyval) :
  numeric_box f = true → numeric s = true → count_lines (format_line f s) = 1.
Proof.
  destruct f as [[[[[[x y] z] l] wd] h] r]. unfold numeric_box, format_line.
  rewrite !andb_true_iff. intros [[[[[[Hx Hy] Hz] Hl] Hw] Hh] Hr] Hs.
  rewrite !count_lines_app, !count_lines_numeric by done. done.
Qed.

Lemma count_lines_frame_text (fr : frame) :
  numeric_frame fr = true →
  count_lines (frame_text fr)
  = List.length (fr_boxes fr) `min` List.length (fr_scores fr).
Proof.
  unfold numeric_frame, frame_text. rewrite andb_true_iff.
  generalize (fr_scores fr). induction (fr_boxes fr) as [|f fs IH];
    intros ss [Hfs Hss]; [done |].
  destruct ss as [|s ss]; [done |].
  cbn [forallb] in Hfs, Hss. apply andb_true_iff in Hfs as [Hf Hfs].
  apply andb_true_iff in Hss as [Hs Hss].
  cbn [zip_with List.length]. rewrite concat_lines_cons, count_lines_app.
  rewrite count_lines_format_line, IH by done. simpl. lia.
Qed.

Lemma size_list_to_set_cons_in (x : string) (l : list string) :
  x ∈ l →
  size (list_to_set (x :: l) : gset string) = size (list_to_set l : gset string).
Proof.
  intros Hin. f_equal. rewrite list_to_set_cons.
  apply subseteq_union_1_L. set_solver.
Qed.

Lemma size_list_to_set_cons_notin (x : string) (l : list string) :
  x ∉ l →
  size (list_to_set (x :: l) : gset string)
  = S (size (list_to_set l : gset string)).
Proof.
  intros Hin. rewrite list_to_set_cons, size_union by set_solver.
  by rewrite size_singleton.
Qed.

Lemma size_list_to_set_le (l : list string) :
  (size (list_to_set l : gset string) ≤ List.length l)%nat.
Proof.
  induction l as [|x l IH]; [by rewrite list_to_set_nil, size_empty |].
  destruct (decide (x ∈ l)).
  - rewrite size_list_to_set_cons_in by done. simpl. lia.
  - rewrite size_list_to_set_cons_notin by done. simpl. lia.
Qed.

(** A list with a repeated item has fewer distinct items than items. *)
Lemma size_list_to_set_repeated (l : list string) (i j : nat) (x : string) :
  i < j → l !! i = Some x → l !! j = Some x →
  size (list_to_set l : gset string) < List.length l.
Proof.
  revert i j. induction l as [|y l IH]; intros i j Hij Hi Hj; [done |].
  destruct j as [|j]; [lia |]. cbn in Hj. destruct i as [|i].
  - injection Hi as ->.
    rewrite size_list_to_set_cons_in by (by eapply list_elem_of_lookup_2).
    pose proof (size_list_to_set_le l). simpl. lia.
  - cbn in Hi. specialize (IH i j ltac:(lia) Hi Hj).
    destruct (decide (y ∈ l)).
    + rewrite size_list_to_set_cons_in by done. simpl. lia.
    + rewrite size_list_to_set_cons_notin by done. simpl. lia.
Qed.

(** Naming by a function that is injective on the items keeps their
    number. *)
Lemma size_list_to_set_fmap (f : string → string) (l : list string) :
  (∀ x y, x ∈ l → y ∈ l → f x = f y → x = y) →
  size (list_to_set (f <$> l) : gset string)
  = size (list_to_set l : gset string).
Proof.
  induction l as [|x l IH]; intros Hinj; [done |].
  assert (size (list_to_set (f <$> l) : gset string)
          = size (list_to_set l : gset string)) as IH'.
  { apply IH. intros a b Ha Hb. apply Hinj; by apply list_elem_of_further. }
  rewrite fmap_cons. destruct (decide (x ∈ l)) as [Hin|Hin].
  - rewrite !size_list_to_set_cons_in; [done | done |].
    by apply list_elem_of_fmap_2.
  - rewrite !size_list_to_set_cons_notin; [by rewrite IH' | done |].
    intros (y & Hfy & Hy)%list_elem_of_fmap. apply Hin.
    rewrite (Hinj x y); [done | apply list_elem_of_here | | done].
    by apply list_elem_of_further.
Qed.

Lemma append_length (s t : string) :
  String.length (s +:+ t) = String.length s + String.length t.
Proof.
  induction s as [|c s IH]; [done |]. rewrite append_cons. simpl. by rewrite IH.
Qed.

Lemma append_inj_r (s t u : string) : s +:+ u = t +:+ u → s = t.
Proof.
  revert t. induction s as [|c s IH]; intros [|d t] Heq; [done | | |].
  - apply (f_equal String.length) in Heq.
    rewrite append_nil_l, append_cons in Heq. simpl in Heq.
    rewrite append_length in Heq. lia.
  - apply (f_equal String.length) in Heq.
    rewrite append_nil_l, append_cons in Heq. simpl in Heq.
    rewrite append_length in Heq. lia.
  - rewrite !append_cons in Heq. injection Heq as -> Heq. f_equal. by apply IH.
Qed.

(** Names that do not start with a separator give different paths when
    they differ. *)
Lemma name_path_inj (output_dir n1 n2 : string) :
  starts_with_sep n1 = false → starts_with_sep n2 = false →
  os_path_join output_dir (n1 +:+ ".txt") = os_path_join output_dir (n2 +:+ ".txt") →
  n1 = n2.
Proof.
  intros H1%starts_with_sep_txt H2%starts_with_sep_txt. unfold os_path_join.
  rewrite H1, H2. destruct (_ || _).
  - intros Heq%(inj (String.app _)). by apply append_inj_r in Heq.
  - intros Heq%(inj (String.app _)). apply (inj (String.app _)) in Heq.
    by apply append_inj_r in Heq.
Qed.

End counting.

(** ** C2 and C9: how many files, how many lines *)

(** Two frames, each with as many scores as boxes, and one output file;
    the file named by the first frame, which has one box, is empty. *)
Lemma C2_counterexample :
  read_result_set twin_data = Some [twin_first; twin_second]
  ∧ List.length (fr_boxes twin_first) = List.length (fr_scores twin_first)
  ∧ List.length (fr_boxes twin_second) = List.length (fr_scores twin_second)
  ∧ (pickle_to_txt "result.pkl" "out" twin_world).1 = Ok PyNone
  ∧ dom (files (pickle_to_txt "result.pkl" "out" twin_world).2)
      ∖ dom (files twin_world)
    = {["out/a.txt"]}
  ∧ files (pickle_to_txt "result.pkl" "out" twin_world).2
      !! frame_path "out" twin_first
    = Some (Text "")
  ∧ List.length (fr_boxes twin_first) = 1.
Proof. repeat split; vm_compute; reflexivity. Qed.

Section files_and_lines.

Variables pickle_file output_dir : string.

Lemma later_paths_differ (frs : list frame) (i : nat) (fr : frame) :
  NoDup (frame_path output_dir <$> frs) →
  frs !! i = Some fr →
  ∀ k fr', i < k → frs !! k = Some fr' →
           frame_path output_dir fr' ≠ frame_path output_dir fr.
Proof.
  intros Hnd Hi k fr' Hik Hk Heq.
  assert (k = i); [| lia].
  apply (NoDup_lookup _ k i (frame_path output_dir fr) Hnd);
    rewrite list_lookup_fmap; [by rewrite Hk, <- Heq | by rewrite Hi].
Qed.

(** C2, as the code has it.  For a container of N frames, N at least 1,
    whose frames name N different files and have as many scores as boxes,
    all of them numbers: the run adds or replaces exactly the N files
    named by the frames, and the file of frame i has as many lines as the
    frame has boxes. *)
Theorem C2_one_file_per_frame (w : world) (data : pyval) (frs : list frame) :
  files w !! pickle_file = Some (Pickled data) →
  no_faults w →
  read_result_set data = Some frs →
  frs ≠ [] →
  Forall (λ fr, List.length (fr_boxes fr) = List.length (fr_scores fr)) frs →
  Forall (λ fr, numeric_frame fr = true) frs →
  NoDup (frame_path output_dir <$> frs) →
  ∃ w' : world,
    pickle_to_txt pickle_file output_dir w = (Ok PyNone, w')
    ∧ dom (files w')
      = list_to_set (frame_path output_dir <$> frs) ∪ dom (files w)
    ∧ size (list_to_set (frame_path output_dir <$> frs) : gset string)
      = List.length frs
    ∧ ∀ i fr, frs !! i = Some fr →
              ∃ text, files w' !! frame_path output_dir fr = Some (Text text)
                      ∧ count_lines text = List.length (fr_boxes fr).
Proof.
  intros Hfile Hfl Hread Hne Hlen Hnum Hnd.
  exists (converted pickle_file output_dir frs w).
  split; [by apply (run_ok _ _ _ data) |].
  split; [apply dom_write_frames |].
  split; [by rewrite size_list_to_set, length_fmap |].
  intros i fr Hi. exists (frame_text fr). split.
  - apply (lookup_write_frames_last _ _ _ i); [done |].
    by apply later_paths_differ.
  - rewrite count_lines_frame_text
      by (by eapply (proj1 (Forall_lookup _ _) Hnum)).
    rewrite (proj1 (Forall_lookup _ _) Hlen _ _ Hi). lia.
Qed.

Lemma py_format_str_inj (s t : string) :
  py_format (PyStr s) = py_format (PyStr t) → s = t.
Proof. done. Qed.

Lemma py_format_int_inj (m n : Z) :
  py_format (PyInt m) = py_format (PyInt n) → m = n.
Proof. cbn [py_format py_repr]. apply (inj pretty). Qed.

(** C9, as the code has it.  Frames are told apart by the text of their
    identifier, which is
    what names the file (on strings, and on integers, different
    identifiers have different texts).  In a well-formed container whose
    identifiers do not start with a separator, when two frames share an
    identifier the run still ends without an exception; the file they
    share holds what the last of them wrote; the files written are as many
    as the different identifiers, fewer than the frames. *)
Theorem C9_shared_frame_id (w : world) (data : pyval) (frs : list frame)
    (i j : nat) (fri frj : frame) :
  files w !! pickle_file = Some (Pickled data) →
  no_faults w →
  read_result_set data = Some frs →
  Forall (λ fr, starts_with_sep (frame_name fr) = false) frs →
  i < j →
  frs !! i = Some fri →
  frs !! j = Some frj →
  frame_name fri = frame_name frj →
  (∀ k fr', j < k → frs !! k = Some fr' → frame_name fr' ≠ frame_name frj) →
  ∃ w' : world,
    pickle_to_txt_body pickle_file output_dir w = (Ok PyNone, w')
    ∧ pickle_to_txt pickle_file output_dir w = (Ok PyNone, w')
    ∧ files w' !! frame_path output_dir fri = Some (Text (frame_text frj))
    ∧ dom (files w')
      = list_to_set (frame_path output_dir <$> frs) ∪ dom (files w)
    ∧ size (list_to_set (frame_path output_dir <$> frs) : gset string)
      = size (list_to_set (frame_name <$> frs) : gset string)
    ∧ size (list_to_set (frame_name <$> frs) : gset string) < List.length frs.
Proof.
  intros Hfile Hfl Hread Hseg Hij Hi Hj Hsame Hlast.
  assert (frs ≠ []) as Hne by (by intros ->).
  exists (converted pickle_file output_dir frs w).
  split; [by apply (body_ok _ _ _ data) |].
  split; [by apply (run_ok _ _ _ data) |].
  split; [| split; [apply dom_write_frames | split]].
  - replace (frame_path output_dir fri) with (frame_path output_dir frj)
      by (unfold frame_path; by rewrite Hsame).
    apply (lookup_write_frames_last _ _ _ j); [done |].
    intros k fr' Hjk Hk Heq. apply (Hlast k fr' Hjk Hk).
    apply (name_path_inj output_dir); [| | done].
    + by eapply (proj1 (Forall_lookup _ _) Hseg).
    + by eapply (proj1 (Forall_lookup _ _) Hseg).
  - change (frame_path output_dir)
      with ((λ n, os_path_join output_dir (n +:+ ".txt")) ∘ frame_name).
    rewrite list_fmap_compose. apply size_list_to_set_fmap.
    intros n1 n2 (fr1 & -> & H1)%list_elem_of_fmap (fr2 & -> & H2)%list_elem_of_fmap.
    apply name_path_inj.
    + by apply (proj1 (Forall_forall _ _) Hseg).
    + by apply (proj1 (Forall_forall _ _) Hseg).
  - rewrite <- (length_fmap frame_name frs).
    apply (size_list_to_set_repeated _ i j (frame_name frj)); [done | |].
    + by rewrite list_lookup_fmap, Hi, <- Hsame.
    + by rewrite list_lookup_fmap, Hj.
Qed.

End files_and_lines.

Lemma C2_one_file_per_frame_witness :
  ∃ w' : world,
    pickle_to_txt "result.pkl" "out/" scenario_world = (Ok PyNone, w')
    ∧ dom (files w')
      = list_to_set (frame_path "out/" <$> [scenario_model])
        ∪ dom (files scenario_world)
    ∧ size (list_to_set (frame_path "out/" <$> [scenario_model]) : gset string)
      = List.length [scenario_model]
    ∧ ∀ i fr, [scenario_model] !! i = Some fr →
              ∃ text, files w' !! frame_path "out/" fr = Some (Text text)
                      ∧ count_lines text = List.length (fr_boxes fr).
Proof.
  apply (C2_one_file_per_frame "result.pkl" "out/" scenario_world
           (PyList [scenario_frame]) [scenario_model]).
  - reflexivity.
  - intros op. reflexivity.
  - reflexivity.
  - discriminate.
  - repeat constructor.
  - repeat constructor.
  - apply NoDup_singleton.
Defined.

Lemma C9_shared_frame_id_witness :
  ∃ w' : world,
    pickle_to_txt_body "result.pkl" "out" twin_world = (Ok PyNone, w')
    ∧ pickle_to_txt "result.pkl" "out" twin_world = (Ok PyNone, w')
    ∧ files w' !! frame_path "out" twin_first = Some (Text (frame_text twin_second))
    ∧ dom (files w')
      = list_to_set (frame_path "out" <$> [twin_first; twin_second])
        ∪ dom (files twin_world)
    ∧ size (list_to_set (frame_path "out" <$> [twin_first; twin_second])
            : gset string)
      = size (list_to_set (frame_name <$> [twin_first; twin_second])
              : gset string)
    ∧ size (list_to_set (frame_name <$> [twin_first; twin_second]) : gset string)
      < List.length [twin_first; twin_second].
Proof.
  apply (C9_shared_frame_id "result.pkl" "out" twin_world twin_data
           [twin_first; twin_second] 0 1 twin_first twin_second).
  - reflexivity.
  - intros op. reflexivity.
  - reflexivity.
  - repeat constructor.
  - lia.
  - reflexivity.
  - reflexivity.
  - reflexivity.
  - intros k fr' Hk Hfr'.
    destruct k as [|[|k]]; [lia | lia | discriminate Hfr'].
Defined.

(** ** Before the loop: the source, the directory, the truth test *)

Section before_the_loop.

Variables pickle_file output_dir : string.

(** X2. When the source cannot be opened or loaded, the run ends at once:
    no file is written, the output directory is not made (it is made only
    after the load), and the console has the load line and the error.  A
    source that is not there gives [FileNotFoundError]. *)
Theorem load_failure_leaves_everything (w : world) (e : exn) :
  load_result pickle_file w = Raise e →
  pickle_to_txt pickle_file output_dir w
  = (Ok PyNone,
     World (files w) (dirs w)
           (stdout w ++ ["Loading pickle file: " +:+ pickle_file;
                         "An error occurred: " +:+ exn_str e])
           (faults w) (unpickle w))
  ∧ (files w !! pickle_file = None → faults w (OpRead pickle_file) = None →
     e = FileNotFoundError pickle_file).
Proof.
  intros Hload. split.
  - unfold pickle_to_txt, try_except. rewrite body_after_load, Hload.
    unfold mbind, M_bind, print, mret, M_ret, with_stdout. cbn.
    by rewrite <- app_assoc.
  - intros Hnone Hrd. unfold load_result, open_and_load in Hload.
    rewrite Hrd, Hnone in Hload. by injection Hload as <-.
Qed.

Lemma load_result_pickled (w : world) (data : pyval) :
  files w !! pickle_file = Some (Pickled data) →
  faults w (OpRead pickle_file) = None →
  load_result pickle_file w = Ok data.
Proof.
  intros Hfile Hrd. unfold load_result, open_and_load. by rewrite Hrd, Hfile.
Qed.

(** X3. When the output directory cannot be made, no record is looked at:
    no file is written, and the console has the two header lines and the
    error. *)
Theorem mkdir_failure_writes_nothing (w : world) (data : pyval) (e : exn) :
  files w !! pickle_file = Some (Pickled data) →
  faults w (OpRead pickle_file) = None →
  faults w (OpMkdir output_dir) = Some e →
  pickle_to_txt pickle_file output_dir w
  = (Ok PyNone,
     World (files w) (dirs w)
           (stdout w ++ header pickle_file output_dir
            ++ ["An error occurred: " +:+ exn_str e])
           (faults w) (unpickle w)).
Proof.
  intros Hfile Hrd Hmk. unfold pickle_to_txt, try_except.
  rewrite body_after_load, (load_result_pickled _ _ Hfile Hrd).
  unfold after_load. rewrite bind_print.
  unfold makedirs at 1. unfold mbind at 1, M_bind at 1.
  cbn [faults with_stdout]. rewrite Hmk.
  unfold mbind, M_bind, print, mret, M_ret, with_stdout, header. cbn.
  by rewrite <- !app_assoc.
Qed.

(** X4. Whatever the source holds, if it is false for Python ([None], 0,
    [False], 0.0, an empty string, list, tuple or dictionary) the run says
    that no data was found and ends without exception: the directory is
    made, no file is written. *)
Theorem falsy_data_is_no_data (w : world) (data : pyval) :
  files w !! pickle_file = Some (Pickled data) →
  faults w (OpRead pickle_file) = None →
  faults w (OpMkdir output_dir) = None →
  truthy data = false →
  pickle_to_txt_body pickle_file output_dir w
  = (Ok PyNone,
     World (files w) ({[output_dir]} ∪ dirs w)
           (stdout w ++ header pickle_file output_dir
            ++ ["No data found in pickle file."])
           (faults w) (unpickle w))
  ∧ pickle_to_txt pickle_file output_dir w
    = pickle_to_txt_body pickle_file output_dir w.
Proof.
  intros Hfile Hrd Hmk Hfalse.
  assert (pickle_to_txt_body pickle_file output_dir w
          = (Ok PyNone,
             World (files w) ({[output_dir]} ∪ dirs w)
                   (stdout w ++ header pickle_file output_dir
                    ++ ["No data found in pickle file."])
                   (faults w) (unpickle w))) as Hbody.
  { rewrite body_after_load, (load_result_pickled _ _ Hfile Hrd).
    unfold after_load. rewrite bind_print.
    unfold makedirs at 1. unfold mbind at 1, M_bind at 1.
    cbn [faults with_stdout]. rewrite Hmk, Hfalse. cbn [negb].
    rewrite bind_print. unfold mret, M_ret, with_dirs, header. cbn.
    by rewrite <- !app_assoc. }
  split; [done |].
  unfold pickle_to_txt. rewrite Hbody. by apply try_except_ok.
Qed.

(** X5. A source that holds a true value that cannot be iterated (a
    number other than zero, [True]) stops the run with the [TypeError] of
    [enumerate]: the directory is made, no file is written. *)
Theorem scalar_data_is_an_error (w : world) (data : pyval) :
  files w !! pickle_file = Some (Pickled data) →
  faults w (OpRead pickle_file) = None →
  faults w (OpMkdir output_dir) = None →
  truthy data = true →
  ok (py_iter data) = None →
  pickle_to_txt pickle_file output_dir w
  = (Ok PyNone,
     World (files w) ({[output_dir]} ∪ dirs w)
           (stdout w ++ header pickle_file output_dir
            ++ ["An error occurred: '" +:+ type_name data
                +:+ "' object is not iterable"])
           (faults w) (unpickle w)).
Proof.
  intros Hfile Hrd Hmk Htrue Hit. unfold pickle_to_txt, try_except.
  rewrite body_after_load, (load_result_pickled _ _ Hfile Hrd).
  unfold after_load. rewrite bind_print.
  unfold makedirs at 1. unfold mbind at 1, M_bind at 1.
  cbn [faults with_stdout]. rewrite Hmk, Htrue. cbn [negb].
  assert (py_iter data
          = Raise (TypeError ("'" +:+ type_name data
                              +:+ "' object is not iterable"))) as ->.
  { by destruct data. }
  unfold mbind, M_bind, lift, print, mret, M_ret, with_stdout, with_dirs, header.
  cbn. by rewrite <- !app_assoc.
Qed.

End before_the_loop.

Lemma load_failure_leaves_everything_witness :
  pickle_to_txt "nothing.pkl" "out" scenario_world
  = (Ok PyNone,
     World (files scenario_world) (dirs scenario_world)
           (stdout scenario_world
            ++ ["Loading pickle file: " +:+ "nothing.pkl";
                "An error occurred: "
                +:+ exn_str (FileNotFoundError "nothing.pkl")])
           (faults scenario_world) (unpickle scenario_world))
  ∧ (files scenario_world !! "nothing.pkl" = None →
     faults scenario_world (OpRead "nothing.pkl") = None →
     FileNotFoundError "nothing.pkl" = FileNotFoundError "nothing.pkl").
Proof.
  apply (load_failure_leaves_everything "nothing.pkl" "out" scenario_world
           (FileNotFoundError "nothing.pkl")).
  reflexivity.
Defined.

Lemma mkdir_failure_writes_nothing_witness :
  pickle_to_txt "result.pkl" "out"
    (World (files scenario_world) ∅ [] (no_mkdir "out") not_a_pickle)
  = (Ok PyNone,
     World (files scenario_world) ∅
           ([] ++ header "result.pkl" "out"
            ++ ["An error occurred: "
                +:+ exn_str (OSError ("[Errno 13] Permission denied: "
                                      +:+ repr_str "out"))])
           (no_mkdir "out") not_a_pickle).
Proof.
  apply (mkdir_failure_writes_nothing "result.pkl" "out"
           (World (files scenario_world) ∅ [] (no_mkdir "out") not_a_pickle)
           (PyList [scenario_frame])); reflexivity.
Defined.

Lemma falsy_data_is_no_data_witness :
  pickle_to_txt_body "result.pkl" "out" none_world
  = (Ok PyNone,
     World (files none_world) ({["out"]} ∪ dirs none_world)
           (stdout none_world ++ header "result.pkl" "out"
            ++ ["No data found in pickle file."])
           (faults none_world) (unpickle none_world))
  ∧ pickle_to_txt "result.pkl" "out" none_world
    = pickle_to_txt_body "result.pkl" "out" none_world.
Proof.
  apply (falsy_data_is_no_data "result.pkl" "out" none_world PyNone);
    reflexivity.
Defined.

Lemma scalar_data_is_an_error_witness :
  pickle_to_txt "result.pkl" "out" number_world
  = (Ok PyNone,
     World (files number_world) ({["out"]} ∪ dirs number_world)
           (stdout number_world ++ header "result.pkl" "out"
            ++ ["An error occurred: '" +:+ type_name (PyInt 5)
                +:+ "' object is not iterable"])
           (faults number_world) (unpickle number_world)).
Proof.
  apply (scalar_data_is_an_error "result.pkl" "out" number_world (PyInt 5));
    reflexivity.
Defined.

(** ** What no run does *)

Section never.

Variables pickle_file output_dir : string.

(** X1. No run removes a file or changes a file into anything but a text
    file: after the run every path holds what it held, or a text. *)
Theorem files_are_kept_or_text (w : world) (p : string) :
  files (pickle_to_txt pickle_file output_dir w).2 !! p = files w !! p
  ∨ ∃ c, files (pickle_to_txt pickle_file output_dir w).2 !! p = Some (Text c).
Proof.
  destruct (run_files pickle_file output_dir (faults w)
              (load_result pickle_file w)) as (F & HF & _ & Hrun).
  destruct (Hrun w eq_refl eq_refl) as (_ & _ & ->).
  destruct (F !! p) as [f|] eqn:HFp.
  - right. destruct (HF _ _ HFp) as [c ->]. exists c.
    by apply lookup_union_Some_l.
  - left. by apply lookup_union_r.
Qed.

(** X8. No run takes a line off the console, and the first line a run
    prints is the load line. *)
Theorem console_grows (w : world) :
  ∃ rest : list string,
    stdout (pickle_to_txt pickle_file output_dir w).2
    = stdout w ++ ("Loading pickle file: " +:+ pickle_file) :: rest.
Proof.
  unfold pickle_to_txt, try_except. rewrite body_after_load.
  destruct (load_result pickle_file w) as [data|e].
  - destruct (writes_only_after_load output_dir data (faults w))
      as (r & F & D & out & _ & Hrun).
    rewrite Hrun by done. destruct r as [v|e]; cbn.
    + exists out. by rewrite <- app_assoc.
    + exists (out ++ ["An error occurred: " +:+ exn_str e]).
      rewrite bind_print. cbn. by rewrite <- !app_assoc.
  - eexists. rewrite bind_print. cbn. by rewrite <- app_assoc.
Qed.

End never.

(** ** Records that are not what the loop expects *)

Section odd_records.

Variables pickle_file output_dir : string.

Lemma py_getitem_not_dict (v : pyval) (key : string) :
  is_dict v = false → ∃ msg, py_getitem v key = Raise (TypeError msg).
Proof. destruct v; try done; intros _; by eexists. Qed.

(** A record that cannot be subscripted stops the loop where it stands. *)
Lemma non_dict_record_aborts_aux (w : world) (data : pyval)
    (before after : list pyval) (bad : pyval) (frs : list frame) :
  files w !! pickle_file = Some (Pickled data) →
  no_faults w →
  py_iter data = Ok (before ++ bad :: after) →
  mapM read_frame before = Some frs →
  is_dict bad = false →
  ∃ msg : string,
    py_getitem bad "frame_id" = Raise (TypeError msg)
    ∧ pickle_to_txt_body pickle_file output_dir w
      = (Raise (TypeError msg), converted pickle_file output_dir frs w)
    ∧ pickle_to_txt pickle_file output_dir w
      = (Ok PyNone,
         World (write_frames output_dir frs (files w))
               ({[output_dir]} ∪ dirs w)
               (stdout w ++ header pickle_file output_dir
                ++ frames_log output_dir frs
                ++ ["An error occurred: " +:+ msg])
               (faults w) (unpickle w)).
Proof.
  intros Hfile Hfl Hit Hfrs Hbad.
  destruct (py_getitem_not_dict bad "frame_id" Hbad) as [msg Hmsg].
  exists msg. split; [done |].
  destruct (body_stops_at pickle_file output_dir w
              (converted pickle_file output_dir frs w) data before after
              bad frs (TypeError msg)) as [Hbody Hrun]; try done.
  { unfold convert_sample. by rewrite (bind_lift_raise _ _ _ _ Hmsg). }
  split; [done |]. rewrite Hrun.
  unfold converted, with_stdout, header. cbn. by rewrite <- !app_assoc.
Qed.

(** X6. When the records before it are converted without failure, a
    record that is not a dictionary (a list, a tuple, a string, a number,
    [None]) stops the run with the [TypeError] of its subscription: the
    files of the records before it are written, no file is made for it or
    for a record after it, and the handler prints the message. *)
Theorem non_dict_record_aborts (w : world) (data : pyval)
    (before after : list pyval) (bad : pyval) (frs : list frame) :
  files w !! pickle_file = Some (Pickled data) →
  no_faults w →
  py_iter data = Ok (before ++ bad :: after) →
  mapM read_frame before = Some frs →
  is_dict bad = false →
  ∃ msg : string,
    py_getitem bad "frame_id" = Raise (TypeError msg)
    ∧ pickle_to_txt_body pickle_file output_dir w
      = (Raise (TypeError msg), converted pickle_file output_dir frs w)
    ∧ pickle_to_txt pickle_file output_dir w
      = (Ok PyNone,
         World (write_frames output_dir frs (files w))
               ({[output_dir]} ∪ dirs w)
               (stdout w ++ header pickle_file output_dir
                ++ frames_log output_dir frs
                ++ ["An error occurred: " +:+ msg])
               (faults w) (unpickle w)).
Proof. apply non_dict_record_aborts_aux. Qed.

(** X9. A source that holds one record, a dictionary, where a list of
    records is expected: the loop goes over the keys of the dictionary,
    and the first key, a string, cannot be subscripted by a field name.
    The directory is made, no file is written, and the console has the
    [TypeError]. *)
Theorem dictionary_source_aborts (w : world) (entries : list (string * pyval)) :
  files w !! pickle_file = Some (Pickled (PyDict entries)) →
  no_faults w →
  entries ≠ [] →
  pickle_to_txt pickle_file output_dir w
  = (Ok PyNone,
     World (files w) ({[output_dir]} ∪ dirs w)
           (stdout w ++ header pickle_file output_dir
            ++ ["An error occurred: string indices must be integers, not 'str'"])
           (faults w) (unpickle w)).
Proof.
  intros Hfile Hfl Hne. destruct entries as [|[k v] entries]; [done |].
  destruct (non_dict_record_aborts_aux w (PyDict ((k, v) :: entries)) []
              ((λ kv, PyStr kv.1) <$> entries) (PyStr k) []) as (msg & Hmsg & _ & Hrun);
    try done.
  rewrite Hrun. injection Hmsg as <-. done.
Qed.

End odd_records.

Section fields_that_cannot_be_iterated.

Variables pickle_file output_dir : string.

Lemma py_iter_error (v : pyval) (e : exn) :
  py_iter v = Raise e → ∃ msg, e = TypeError msg.
Proof. destruct v; simpl; intros [=]; subst; by eexists. Qed.

(** X10. When the records before it are converted without failure and a
    record has its three fields, but its boxes or its scores cannot be
    iterated ([None], a number), the run stops with the [TypeError] of
    [zip]; the file of the record has been opened by then, so it is there
    and empty, whatever it held. *)
Theorem uniterable_field_empties_the_file (w : world) (data : pyval)
    (before after : list pyval) (frs : list frame) (bad fid bl sl : pyval) :
  files w !! pickle_file = Some (Pickled data) →
  no_faults w →
  py_iter data = Ok (before ++ bad :: after) →
  mapM read_frame before = Some frs →
  py_getitem bad "frame_id" = Ok fid →
  py_getitem bad "boxes_lidar" = Ok bl →
  py_getitem bad "score" = Ok sl →
  ok (py_iter bl) = None ∨ ok (py_iter sl) = None →
  ∃ (msg : string) (w0 : world),
    pickle_to_txt_body pickle_file output_dir w = (Raise (TypeError msg), w0)
    ∧ pickle_to_txt pickle_file output_dir w
      = (Ok PyNone,
         with_stdout (stdout w0 ++ ["An error occurred: " +:+ msg]) w0)
    ∧ files w0
      = <[os_path_join output_dir (py_format fid +:+ ".txt") := Text ""]>
          (write_frames output_dir frs (files w))
    ∧ stdout w0
      = stdout w ++ header pickle_file output_dir
        ++ frames_log output_dir frs
        ++ ["Writing to file: "
            +:+ os_path_join output_dir (py_format fid +:+ ".txt")].
Proof.
  intros Hfile Hfl Hit Hfrs Hfid Hbl Hsl Hfield.
  set (path := os_path_join output_dir (py_format fid +:+ ".txt")).
  set (W := converted pickle_file output_dir frs w).
  assert (no_faults W) as HflW by (intros op; apply Hfl).
  assert (∃ msg,
            convert_sample output_dir bad W
            = (Raise (TypeError msg),
               World (<[path := Text ""]> (files W)) (dirs W)
                     (stdout W ++ ["Writing to file: " +:+ path])
                     (faults W) (unpickle W))) as [msg Hbad].
  { unfold convert_sample.
    rewrite (bind_lift_ok _ _ _ _ Hfid), (bind_lift_ok _ _ _ _ Hbl),
      (bind_lift_ok _ _ _ _ Hsl).
    rewrite bind_print.
    unfold open_w at 1. unfold mbind at 1, M_bind at 1.
    cbn [faults with_stdout]. rewrite HflW.
    destruct (py_iter bl) as [boxes|e1] eqn:Hboxes.
    - destruct (py_iter sl) as [ss|e2] eqn:Hss; [by destruct Hfield |].
      destruct (py_iter_error _ _ Hss) as [msg ->]. exists msg.
      rewrite (bind_lift_ok _ _ _ boxes eq_refl).
      by rewrite (bind_lift_raise _ _ _ (TypeError msg) eq_refl).
    - destruct (py_iter_error _ _ Hboxes) as [msg ->]. exists msg.
      by rewrite (bind_lift_raise _ _ _ (TypeError msg) eq_refl). }
  exists msg. eexists.
  destruct (body_stops_at pickle_file output_dir w _ data before after bad frs _
              Hfile Hfl Hit Hfrs Hbad) as [Hbody Hrun].
  split; [exact Hbody |]. split; [exact Hrun |]. split; [done |].
  unfold W, converted, header. cbn. by rewrite <- !app_assoc.
Qed.

End fields_that_cannot_be_iterated.

(** ** Where the files go *)

Section paths.

Variables pickle_file output_dir : string.

Lemma starts_with_sep_txt_true (name : string) :
  starts_with_sep name = true → starts_with_sep (name +:+ ".txt") = true.
Proof. by destruct name. Qed.

(** X11. An identifier whose text starts with a separator takes the file
    out of the output directory: [os.path.join] drops the directory, and
    the file of the frame is written at [<frame_id>.txt] itself. *)
Theorem absolute_identifier_leaves_the_directory (w : world) (data : pyval)
    (frs : list frame) (i : nat) (fr : frame) :
  files w !! pickle_file = Some (Pickled data) →
  no_faults w →
  read_result_set data = Some frs →
  frs !! i = Some fr →
  starts_with_sep (py_format (fr_id fr)) = true →
  (∀ k fr', i < k → frs !! k = Some fr' →
            frame_path output_dir fr' ≠ frame_path output_dir fr) →
  os_path_join output_dir (py_format (fr_id fr) +:+ ".txt")
  = py_format (fr_id fr) +:+ ".txt"
  ∧ files (pickle_to_txt pickle_file output_dir w).2
      !! (py_format (fr_id fr) +:+ ".txt")
    = Some (Text (concat_lines (spec_lines fr))).
Proof.
  intros Hfile Hfl Hread Hi Habs Hlast.
  assert (frame_path output_dir fr = py_format (fr_id fr) +:+ ".txt") as Hpath.
  { unfold frame_path, frame_name, os_path_join.
    by rewrite (starts_with_sep_txt_true _ Habs). }
  split; [exact Hpath |].
  rewrite (run_ok _ _ _ data frs) by (done || by intros ->).
  cbn [snd converted files]. rewrite <- Hpath, <- frame_text_spec.
  by apply (lookup_write_frames_last _ _ _ i).
Qed.

Lemma ends_with_sep_slash (d : string) : ends_with_sep (d +:+ "/") = true.
Proof.
  induction d as [|c d IH]; [done |].
  rewrite append_cons. destruct d as [|c' d]; [done |].
  rewrite append_cons in IH |- *. exact IH.
Qed.

(** A trailing separator on the directory name changes no path. *)
Lemma os_path_join_trailing_sep (d b : string) :
  d ≠ "" → ends_with_sep d = false →
  os_path_join (d +:+ "/") b = os_path_join d b.
Proof.
  intros Hd He. unfold os_path_join. destruct (starts_with_sep b); [done |].
  rewrite ends_with_sep_slash, orb_true_r, He.
  rewrite bool_decide_eq_false_2 by done. cbn [orb]. apply append_assoc.
Qed.

End paths.

Section trailing_separator.

Variable pickle_file : string.

Lemma convert_sample_trailing_sep (d : string) (sample : pyval) (w : world) :
  d ≠ "" → ends_with_sep d = false →
  convert_sample (d +:+ "/") sample w = convert_sample d sample w.
Proof.
  intros Hd He. unfold convert_sample, mbind, M_bind, lift.
  destruct (py_getitem sample "frame_id") as [fid|]; [| done].
  destruct (py_getitem sample "boxes_lidar") as [bl|]; [| done].
  destruct (py_getitem sample "score") as [sl|]; [| done].
  cbv zeta. by rewrite os_path_join_trailing_sep.
Qed.

Lemma convert_samples_trailing_sep (d : string) (samples : list pyval) :
  d ≠ "" → ends_with_sep d = false →
  ∀ w, convert_samples (d +:+ "/") samples w = convert_samples d samples w.
Proof.
  intros Hd He. induction samples as [|s samples IH]; intros w; [done |].
  cbn [convert_samples]. unfold mbind, M_bind.
  rewrite convert_sample_trailing_sep by done.
  destruct (convert_sample d s w) as [[[]|e] w1]; [apply IH | done].
Qed.

(** The block after the load, step by step. *)
Lemma after_load_run (output_dir : string) (data : pyval) (w : world) :
  after_load output_dir data w
  = match faults w (OpMkdir output_dir) with
    | Some e =>
        (Raise e,
         with_stdout
           (stdout w ++ ["Creating output directory: " +:+ output_dir]) w)
    | None =>
        let w2 := World (files w) ({[output_dir]} ∪ dirs w)
                        (stdout w
                         ++ ["Creating output directory: " +:+ output_dir])
                        (faults w) (unpickle w) in
        if truthy data then
          match py_iter data with
          | Ok samples =>
              (convert_samples output_dir samples ≫= λ _, mret PyNone) w2
          | Raise e => (Raise e, w2)
          end
        else
          (Ok PyNone,
           with_stdout (stdout w2 ++ ["No data found in pickle file."]) w2)
    end.
Proof.
  unfold after_load. rewrite bind_print.
  unfold makedirs at 1. unfold mbind at 1, M_bind at 1.
  cbn [faults with_stdout].
  destruct (faults w (OpMkdir output_dir)) as [e|]; [done |].
  destruct (truthy data); cbn [negb]; [| done].
  by destruct (py_iter data) as [samples|e].
Qed.

(** X12. A trailing separator on the name of the output directory makes
    no difference to the files: called with [dir/] the routine leaves the
    file system it leaves when called with [dir], for every source and
    every failure ([makedirs] failing or not for both names alike). *)
Theorem trailing_separator_same_files (d : string) (w : world) :
  d ≠ "" →
  ends_with_sep d = false →
  faults w (OpMkdir (d +:+ "/")) = faults w (OpMkdir d) →
  files (pickle_to_txt pickle_file (d +:+ "/") w).2
  = files (pickle_to_txt pickle_file d w).2.
Proof.
  intros Hd He Hmk. unfold pickle_to_txt, try_except.
  rewrite !body_after_load.
  destruct (load_result pickle_file w) as [data|e]; [| done].
  rewrite !after_load_run. cbn [faults with_stdout]. rewrite Hmk.
  destruct (faults w (OpMkdir d)) as [e|]; [done |].
  cbv zeta. destruct (truthy data); [| done].
  destruct (py_iter data) as [samples|e]; [| done].
  unfold mbind, M_bind. rewrite convert_samples_trailing_sep by done.
  destruct (writes_only_convert_samples d samples (faults w))
    as (r & F & D & out & _ & Hrun).
  rewrite !Hrun by done. by destruct r.
Qed.

End trailing_separator.

(** ** The order of the frames *)

Section order.

Variable output_dir : string.

Lemma lookup_write_frames_elem (frs : list frame) (m : gmap string file)
    (fr : frame) :
  NoDup (frame_path output_dir <$> frs) →
  fr ∈ frs →
  write_frames output_dir frs m !! frame_path output_dir fr
  = Some (Text (frame_text fr)).
Proof.
  intros Hnd (i & Hi)%list_elem_of_lookup_1.
  apply (lookup_write_frames_last _ _ _ i); [done |].
  by apply later_paths_differ.
Qed.

(** With different file names the order of the frames does not matter. *)
Lemma write_frames_perm (frs frs' : list frame) (m : gmap string file) :
  frs ≡ₚ frs' →
  NoDup (frame_path output_dir <$> frs) →
  write_frames output_dir frs m = write_frames output_dir frs' m.
Proof.
  intros Hperm Hnd.
  assert (NoDup (frame_path output_dir <$> frs')) as Hnd'.
  { by rewrite <- Hperm. }
  apply map_eq. intros p.
  destruct (decide (p ∈ frame_path output_dir <$> frs)) as [Hin|Hin].
  - apply list_elem_of_fmap in Hin as (fr & -> & Hfr).
    rewrite !lookup_write_frames_elem; try done. by rewrite <- Hperm.
  - rewrite !lookup_write_frames_other; [done | |].
    + apply Forall_forall. intros fr Hfr Heq. apply Hin. rewrite <- Heq.
      apply list_elem_of_fmap_2. by rewrite Hperm.
    + apply Forall_forall. intros fr Hfr Heq. apply Hin. rewrite <- Heq.
      by apply list_elem_of_fmap_2.
Qed.

(** X13. Two sources that hold the same frames in different orders, the
    frames naming different files, leave the same file system. *)
Theorem frame_order_is_irrelevant (pickle_file pickle_file' : string)
    (w : world) (data data' : pyval) (frs frs' : list frame) :
  files w !! pickle_file = Some (Pickled data) →
  files w !! pickle_file' = Some (Pickled data') →
  no_faults w →
  read_result_set data = Some frs →
  read_result_set data' = Some frs' →
  frs ≠ [] →
  frs ≡ₚ frs' →
  NoDup (frame_path output_dir <$> frs) →
  files (pickle_to_txt pickle_file output_dir w).2
  = files (pickle_to_txt pickle_file' output_dir w).2.
Proof.
  intros Hfile Hfile' Hfl Hread Hread' Hne Hperm Hnd.
  assert (frs' ≠ []) as Hne'.
  { intros ->. by apply Permutation_nil_r in Hperm. }
  rewrite (run_ok _ _ _ data frs), (run_ok _ _ _ data' frs') by done.
  cbn [snd converted files]. by apply write_frames_perm.
Qed.

(** X14. The console of a complete run: after the two header lines, for
    each frame in order, the line of its file, one line for each box
    written, numbered from 0, and the line of completion. *)
Theorem console_of_a_complete_run (pickle_file : string) (w : world)
    (data : pyval) (frs : list frame) :
  files w !! pickle_file = Some (Pickled data) →
  no_faults w →
  read_result_set data = Some frs →
  frs ≠ [] →
  stdout (pickle_to_txt pickle_file output_dir w).2
  = stdout w
    ++ ["Loading pickle file: " +:+ pickle_file;
        "Creating output directory: " +:+ output_dir]
    ++ concat
         ((λ fr,
             ["Writing to file: "
              +:+ os_path_join output_dir (py_format (fr_id fr) +:+ ".txt")]
             ++ ((λ j, "Written box " +:+ pretty j +:+ " for frame "
                       +:+ py_format (fr_id fr))
                   <$> seq 0 (List.length (fr_boxes fr)
                              `min` List.length (fr_scores fr)))
             ++ ["Completed writing for frame " +:+ py_format (fr_id fr)])
            <$> frs).
Proof.
  intros Hfile Hfl Hread Hne. by rewrite (run_ok _ _ _ data frs).
Qed.

End order.

(** ** Reading a line back *)

Section reading_back.

Lemma word_list_token (t : string) : is_token t = true → word_list t = [t].
Proof.
  unfold is_token, word_list. intros [Hne _]%andb_true_iff.
  by destruct (bool_decide (t = "")).
Qed.

Lemma split_go_token (t : string) :
  all_chars no_space t = true →
  ∀ cur rest, split_go cur (t +:+ rest) = split_go (cur +:+ t) rest.
Proof.
  induction t as [|c t IH]; intros Ht cur rest.
  - by rewrite append_nil_l, append_nil_r.
  - cbn [all_chars] in Ht. apply andb_true_iff in Ht as [Hc Ht].
    rewrite append_cons. cbn [split_go].
    unfold no_space in Hc. apply negb_true_iff in Hc. rewrite Hc.
    rewrite IH by done. by rewrite append_assoc, append_cons, append_nil_l.
Qed.

(** Words that hold no white space, joined by single blanks and ended by
    a newline, are read back as they were. *)
Lemma py_split_joined (ts : list string) :
  ts ≠ [] → Forall (λ t, is_token t = true) ts →
  py_split (String.concat " " ts +:+ nl) = ts.
Proof.
  unfold py_split. induction ts as [|t ts IH]; [done |]. intros _ Hts.
  apply Forall_cons in Hts as [Ht Hts].
  pose proof Ht as [_ Hchars]%andb_true_iff.
  destruct ts as [|t' ts].
  - cbn [String.concat]. rewrite split_go_token, append_nil_l by done.
    cbn [split_go nl]. by rewrite word_list_token.
  - change (String.concat " " (t :: t' :: ts))
      with (t +:+ " " +:+ String.concat " " (t' :: ts)).
    rewrite !append_assoc, split_go_token, append_nil_l by done.
    rewrite append_cons, append_nil_l. cbn [split_go].
    rewrite word_list_token by done. cbn [app]. f_equal. by apply IH.
Qed.

(** X15. Each line the routine writes can be read back: when the eight
    text forms hold no white space and none is empty, as those of numbers
    are, splitting the line at white space gives the eight text forms, in
    order. *)
Theorem line_splits_into_its_fields (f : box_fields) (score : pyval) :
  Forall (λ t, is_token t = true) (field_texts f score) →
  py_split (format_line f score) = field_texts f score.
Proof.
  intros Hts. rewrite format_line_spec.
  destruct f as [[[[[[x y] z] l] wd] h] r].
  unfold spec_line, join_spaces. by apply py_split_joined.
Qed.

Lemma all_chars_pretty_N_go (p : ascii → bool) (x : N) (s : string) :
  (∀ d, p (pretty_N_char d) = true) →
  all_chars p (pretty_N_go x s) = all_chars p s.
Proof.
  intros Hp. revert s. induction (N.lt_wf_0 x) as [x _ IH]; intros s.
  destruct (decide (x = 0)%N) as [->|Hx]; [done |].
  rewrite pretty_N_go_step by lia.
  rewrite IH by (apply N.div_lt; lia). cbn [all_chars]. by rewrite Hp.
Qed.

Lemma pretty_N_go_not_empty (x : N) (s : string) :
  s ≠ "" → pretty_N_go x s ≠ "".
Proof.
  revert s. induction (N.lt_wf_0 x) as [x _ IH]; intros s Hs.
  destruct (decide (x = 0)%N) as [->|Hx]; [done |].
  rewrite pretty_N_go_step by lia. apply IH; [apply N.div_lt; lia | done].
Qed.

Lemma no_space_digit (d : N) : no_space (pretty_N_char d) = true.
Proof. unfold pretty_N_char. by repeat case_match. Qed.

Lemma is_token_positive (x : positive) : is_token (pretty (N.pos x)) = true.
Proof.
  unfold is_token, pretty, pretty_N. case_decide; [done |].
  rewrite pretty_N_go_step by lia.
  rewrite all_chars_pretty_N_go by apply no_space_digit.
  cbn [all_chars]. rewrite no_space_digit, andb_true_r.
  apply negb_true_iff, bool_decide_eq_false_2.
  by apply pretty_N_go_not_empty.
Qed.

(** The text of an integer is such a word, and so is the text of a float
    that is not empty. *)
Lemma is_token_number (v : pyval) :
  numeric v = true → py_format v ≠ "" → is_token (py_format v) = true.
Proof.
  destruct v as [| |n|text| | | |]; try done; cbn [numeric py_format py_repr].
  - intros _ _. unfold pretty, pretty_Z. destruct n as [|x|x]; [done | |].
    + apply is_token_positive.
    + pose proof (is_token_positive x) as [_ Hx]%andb_true_iff.
      unfold is_token. rewrite append_cons, append_nil_l. cbn [all_chars].
      change (pretty x) with (pretty (N.pos x)). by rewrite Hx.
  - intros Htext Hne. unfold is_token.
    rewrite bool_decide_eq_false_2 by done. cbn [negb andb].
    clear Hne. induction text as [|c text IH]; [done |].
    cbn [all_chars] in *. apply andb_true_iff in Htext as [Hc Htext].
    rewrite IH by done. rewrite andb_true_r.
    unfold no_space. apply negb_true_iff.
    destruct (py_space c) eqn:Hsp; [| done].
    exfalso. revert Hc Hsp. unfold float_char, py_space. clear.
    destruct c as [[] [] [] [] [] [] [] []]; by vm_compute.
Qed.

End reading_back.

(** ** The properties above, on the sample worlds *)

Lemma non_dict_record_aborts_witness :
  ∃ msg : string,
    py_getitem (PyInt 3) "frame_id" = Raise (TypeError msg)
    ∧ pickle_to_txt_body "result.pkl" "out" number_record_world
      = (Raise (TypeError msg),
         converted "result.pkl" "out" [scenario_model] number_record_world)
    ∧ pickle_to_txt "result.pkl" "out" number_record_world
      = (Ok PyNone,
         World (write_frames "out" [scenario_model] (files number_record_world))
               ({["out"]} ∪ dirs number_record_world)
               (stdout number_record_world ++ header "result.pkl" "out"
                ++ frames_log "out" [scenario_model]
                ++ ["An error occurred: " +:+ msg])
               (faults number_record_world) (unpickle number_record_world)).
Proof.
  apply (non_dict_record_aborts "result.pkl" "out" number_record_world
           (PyList [scenario_frame; PyInt 3; scenario_frame])
           [scenario_frame] [scenario_frame] (PyInt 3) [scenario_model]).
  - reflexivity.
  - intros op. reflexivity.
  - reflexivity.
  - reflexivity.
  - reflexivity.
Defined.

Lemma dictionary_source_aborts_witness :
  pickle_to_txt "result.pkl" "out" lone_record_world
  = (Ok PyNone,
     World (files lone_record_world) ({["out"]} ∪ dirs lone_record_world)
           (stdout lone_record_world ++ header "result.pkl" "out"
            ++ ["An error occurred: string indices must be integers, not 'str'"])
           (faults lone_record_world) (unpickle lone_record_world)).
Proof.
  apply (dictionary_source_aborts "result.pkl" "out" lone_record_world
           [("frame_id", PyStr "000001");
            ("boxes_lidar",
             PyList [PyList (PyFloat <$> ["1.0"; "2.0"; "3.0"; "4.0"; "5.0";
                                          "6.0"; "0.1"])]);
            ("score", PyList [PyFloat "0.87"])]).
  - reflexivity.
  - intros op. reflexivity.
  - discriminate.
Defined.

Lemma uniterable_field_empties_the_file_witness :
  ∃ (msg : string) (w0 : world),
    pickle_to_txt_body "result.pkl" "out" none_boxes_world
    = (Raise (TypeError msg), w0)
    ∧ pickle_to_txt "result.pkl" "out" none_boxes_world
      = (Ok PyNone,
         with_stdout (stdout w0 ++ ["An error occurred: " +:+ msg]) w0)
    ∧ files w0
      = <[os_path_join "out" (py_format (PyStr "n") +:+ ".txt") := Text ""]>
          (write_frames "out" [scenario_model] (files none_boxes_world))
    ∧ stdout w0
      = stdout none_boxes_world ++ header "result.pkl" "out"
        ++ frames_log "out" [scenario_model]
        ++ ["Writing to file: "
            +:+ os_path_join "out" (py_format (PyStr "n") +:+ ".txt")].
Proof.
  apply (uniterable_field_empties_the_file "result.pkl" "out" none_boxes_world
           (PyList [scenario_frame; none_boxes_record])
           [scenario_frame] [] [scenario_model] none_boxes_record
           (PyStr "n") PyNone (PyList [PyFloat "0.5"])).
  - reflexivity.
  - intros op. reflexivity.
  - reflexivity.
  - reflexivity.
  - reflexivity.
  - reflexivity.
  - reflexivity.
  - left. reflexivity.
Defined.

Lemma absolute_identifier_leaves_the_directory_witness :
  os_path_join "out" (py_format (fr_id absolute_model) +:+ ".txt")
  = py_format (fr_id absolute_model) +:+ ".txt"
  ∧ files (pickle_to_txt "result.pkl" "out" absolute_world).2
      !! (py_format (fr_id absolute_model) +:+ ".txt")
    = Some (Text (concat_lines (spec_lines absolute_model))).
Proof.
  apply (absolute_identifier_leaves_the_directory "result.pkl" "out"
           absolute_world (PyList [absolute_frame]) [absolute_model] 0
           absolute_model).
  - reflexivity.
  - intros op. reflexivity.
  - reflexivity.
  - reflexivity.
  - reflexivity.
  - intros k fr' Hk Hfr'. destruct k as [|k]; [lia | discriminate Hfr'].
Defined.

Lemma trailing_separator_same_files_witness :
  files (pickle_to_txt "result.pkl" ("out" +:+ "/") scenario_world).2
  = files (pickle_to_txt "result.pkl" "out" scenario_world).2.
Proof.
  apply (trailing_separator_same_files "result.pkl" "out" scenario_world).
  - discriminate.
  - reflexivity.
  - reflexivity.
Defined.

Lemma frame_order_is_irrelevant_witness :
  files (pickle_to_txt "ab.pkl" "out" two_sources_world).2
  = files (pickle_to_txt "ba.pkl" "out" two_sources_world).2.
Proof.
  apply (frame_order_is_irrelevant "out" "ab.pkl" "ba.pkl" two_sources_world
           pair_ab pair_ba [twin_first; frame_b] [frame_b; twin_first]).
  - reflexivity.
  - reflexivity.
  - intros op. reflexivity.
  - reflexivity.
  - reflexivity.
  - discriminate.
  - apply perm_swap.
  - change (NoDup [frame_path "out" twin_first; frame_path "out" frame_b]).
    apply NoDup_cons. split; [| apply NoDup_singleton].
    intros Hin%list_elem_of_singleton. vm_compute in Hin. discriminate Hin.
Defined.

Lemma console_of_a_complete_run_witness :
  stdout (pickle_to_txt "result.pkl" "out/" scenario_world).2
  = stdout scenario_world
    ++ ["Loading pickle file: " +:+ "result.pkl";
        "Creating output directory: " +:+ "out/"]
    ++ concat
         ((λ fr,
             ["Writing to file: "
              +:+ os_path_join "out/" (py_format (fr_id fr) +:+ ".txt")]
             ++ ((λ j, "Written box " +:+ pretty j +:+ " for frame "
                       +:+ py_format (fr_id fr))
                   <$> seq 0 (List.length (fr_boxes fr)
                              `min` List.length (fr_scores fr)))
             ++ ["Completed writing for frame " +:+ py_format (fr_id fr)])
            <$> [scenario_model]).
Proof.
  apply (console_of_a_complete_run "out/" "result.pkl" scenario_world
           (PyList [scenario_frame]) [scenario_model]).
  - reflexivity.
  - intros op. reflexivity.
  - reflexivity.
  - discriminate.
Defined.

Lemma line_splits_into_its_fields_witness :
  py_split
    (format_line (PyFloat "1.0", PyFloat "2.0", PyFloat "3.0", PyFloat "4.0",
                  PyFloat "5.0", PyFloat "6.0", PyFloat "0.1") (PyFloat "0.87"))
  = field_texts (PyFloat "1.0", PyFloat "2.0", PyFloat "3.0", PyFloat "4.0",
                 PyFloat "5.0", PyFloat "6.0", PyFloat "0.1") (PyFloat "0.87").
Proof.
  apply (line_splits_into_its_fields
           (PyFloat "1.0", PyFloat "2.0", PyFloat "3.0", PyFloat "4.0",
            PyFloat "5.0", PyFloat "6.0", PyFloat "0.1") (PyFloat "0.87")).
  repeat constructor.
Defined.

(** ** Files the run does not touch, files it cannot open *)

Section untouched.

Variables pickle_file output_dir : string.

(** X16. A complete run touches no file but those the frames name: any
    other path, the source among them, holds after the run what it held
    before. *)
Theorem other_files_are_untouched (w : world) (data : pyval)
    (frs : list frame) (p : string) :
  files w !! pickle_file = Some (Pickled data) →
  no_faults w →
  read_result_set data = Some frs →
  Forall (λ fr, frame_path output_dir fr ≠ p) frs →
  files (pickle_to_txt pickle_file output_dir w).2 !! p = files w !! p.
Proof.
  intros Hfile Hfl Hread Hother. destruct frs as [|fr frs].
  - apply read_result_set_Some in Hread as (samples & Hit & Hfrs).
    apply Forall2_nil_inv_r in Hfrs as ->.
    unfold pickle_to_txt, try_except.
    rewrite body_after_load, (load_result_pickled _ _ _ Hfile (Hfl _)).
    rewrite after_load_run. cbn [faults with_stdout]. rewrite Hfl.
    by rewrite (py_iter_truthy _ _ Hit).
  - rewrite (run_ok _ _ _ data (fr :: frs)) by done.
    cbn [snd converted files]. by apply lookup_write_frames_other.
Qed.

(** A well-formed record when nothing fails at its own file. *)
Lemma convert_sample_ok_at (sample : pyval) (fr : frame) (w : world) :
  read_frame sample = Some fr →
  faults w (OpOpen (frame_path output_dir fr)) = None →
  convert_sample output_dir sample w
  = (Ok tt,
     World (<[frame_path output_dir fr := Text (frame_text fr)]> (files w))
           (dirs w)
           (stdout w ++ frame_log output_dir fr)
           (faults w) (unpickle w)).
Proof.
  intros (bl & sl & boxes & Hfid & Hbl & Hsl & Hboxes & Hss & Hun)%read_frame_Some
    Hopen.
  unfold frame_path, frame_name in Hopen.
  unfold convert_sample.
  rewrite (bind_lift_ok _ _ _ _ Hfid), (bind_lift_ok _ _ _ _ Hbl),
    (bind_lift_ok _ _ _ _ Hsl).
  rewrite bind_print.
  unfold open_w at 1. unfold mbind at 1, M_bind at 1.
  cbn [faults with_stdout]. rewrite Hopen.
  rewrite (bind_lift_ok _ _ _ _ Hboxes), (bind_lift_ok _ _ _ _ Hss).
  erewrite bind_ok; last first.
  { apply (write_boxes_ok _ _ _ _ Hun); cbn. apply lookup_insert_eq. }
  unfold print, with_stdout, frame_log, frame_path, frame_name, frame_text.
  cbn. f_equal. f_equal.
  - by rewrite insert_insert_eq, append_nil_l.
  - by rewrite <- !app_assoc.
Qed.

Lemma convert_samples_ok_at (samples : list pyval) (frs : list frame) :
  Forall2 (λ s fr, read_frame s = Some fr) samples frs →
  ∀ w : world,
    Forall (λ fr, faults w (OpOpen (frame_path output_dir fr)) = None) frs →
    convert_samples output_dir samples w
    = (Ok tt,
       World (write_frames output_dir frs (files w))
             (dirs w)
             (stdout w ++ frames_log output_dir frs)
             (faults w) (unpickle w)).
Proof.
  induction 1 as [|s fr samples frs Hs _ IH]; intros w Hfl.
  - cbn. unfold mret, M_ret. destruct w; cbn. by rewrite app_nil_r.
  - apply Forall_cons in Hfl as [Hopen Hfl].
    cbn [convert_samples].
    erewrite bind_ok; [| by apply convert_sample_ok_at].
    rewrite IH; [| done]. cbn. f_equal. f_equal.
    unfold frames_log. cbn. by rewrite <- app_assoc.
Qed.

(** X17. When the file of a well-formed record cannot be opened for
    writing, the run stops there with the error of [open]: the files of
    the records before it are written, its own file is left as it was,
    no record after it is looked at, and the handler prints the error. *)
Theorem unwritable_file_stops_the_run (w : world) (data : pyval)
    (before after : list pyval) (bad : pyval) (frs : list frame) (fr : frame)
    (e : exn) :
  files w !! pickle_file = Some (Pickled data) →
  faults w (OpRead pickle_file) = None →
  faults w (OpMkdir output_dir) = None →
  py_iter data = Ok (before ++ bad :: after) →
  mapM read_frame before = Some frs →
  Forall (λ fr', faults w (OpOpen (frame_path output_dir fr')) = None) frs →
  read_frame bad = Some fr →
  faults w (OpOpen (frame_path output_dir fr)) = Some e →
  pickle_to_txt pickle_file output_dir w
  = (Ok PyNone,
     World (write_frames output_dir frs (files w))
           ({[output_dir]} ∪ dirs w)
           (stdout w ++ header pickle_file output_dir
            ++ frames_log output_dir frs
            ++ ["Writing to file: " +:+ frame_path output_dir fr;
                "An error occurred: " +:+ exn_str e])
           (faults w) (unpickle w)).
Proof.
  intros Hfile Hrd Hmk Hit Hfrs%mapM_Some Hquiet
    (bl & sl & boxes & Hfid & Hbl & Hsl & _)%read_frame_Some Hopen.
  unfold frame_path, frame_name in Hopen.
  unfold pickle_to_txt.
  erewrite try_except_raise; last first.
  { rewrite (body_loop _ _ _ _ _ Hfile Hrd Hmk Hit) by (by destruct before).
    apply bind_raise.
    erewrite convert_samples_app; last first.
    { by apply (convert_samples_ok_at _ _ Hfrs). }
    cbn [convert_samples]. apply bind_raise.
    unfold convert_sample.
    rewrite (bind_lift_ok _ _ _ _ Hfid), (bind_lift_ok _ _ _ _ Hbl),
      (bind_lift_ok _ _ _ _ Hsl).
    rewrite bind_print.
    unfold open_w at 1. unfold mbind at 1, M_bind at 1.
    cbn [faults with_stdout prepared]. rewrite Hopen. reflexivity. }
  rewrite bind_print. unfold mret, M_ret, with_stdout, prepared, header.
  unfold frame_path, frame_name. cbn. do 2 f_equal.
  by rewrite <- !app_assoc.
Qed.

End untouched.

Lemma other_files_are_untouched_witness :
  files (pickle_to_txt "result.pkl" "out/" scenario_world).2 !! "result.pkl"
  = files scenario_world !! "result.pkl".
Proof.
  apply (other_files_are_untouched "result.pkl" "out/" scenario_world
           (PyList [scenario_frame]) [scenario_model] "result.pkl").
  - reflexivity.
  - intros op. reflexivity.
  - reflexivity.
  - repeat constructor. vm_compute. discriminate.
Defined.

Lemma unwritable_file_stops_the_run_witness :
  pickle_to_txt "result.pkl" "out" second_read_only_world
  = (Ok PyNone,
     World (write_frames "out" [scenario_model] (files second_read_only_world))
           ({["out"]} ∪ dirs second_read_only_world)
           (stdout second_read_only_world ++ header "result.pkl" "out"
            ++ frames_log "out" [scenario_model]
            ++ ["Writing to file: " +:+ frame_path "out" second_model;
                "An error occurred: "
                +:+ exn_str (OSError ("[Errno 13] Permission denied: "
                                      +:+ repr_str "out/000002.txt"))])
           (faults second_read_only_world) (unpickle second_read_only_world)).
Proof.
  apply (unwritable_file_stops_the_run "result.pkl" "out" second_read_only_world
           (PyList [scenario_frame; second_frame]) [scenario_frame] []
           second_frame [scenario_model] second_model).
  - reflexivity.
  - reflexivity.
  - reflexivity.
  - reflexivity.
  - reflexivity.
  - repeat constructor.
  - reflexivity.
  - reflexivity.
Defined.

(** ** The scripts *)

(** Run as a script, each file calls the routine at its own paths: the
    value is [None], and the file of a frame whose identifier does not
    start with a separator is the directory written in the script, a
    separator, the identifier and [.txt]. *)
Lemma scripts_return_none (w : world) :
  (get_results_main w).1 = Ok PyNone ∧ (picke_to_txt_main w).1 = Ok PyNone.
Proof.
  unfold get_results_main, picke_to_txt_main. split.
  - by destruct (pickle_to_txt_cases get_results_pickle_file
                   get_results_output_dir w) as (w' & -> & _).
  - by destruct (pickle_to_txt_cases picke_to_txt_pickle_file
                   picke_to_txt_output_dir w) as (w' & -> & _).
Qed.

Lemma scripts_file_path (fid : pyval) :
  starts_with_sep (py_format fid) = false →
  os_path_join get_results_output_dir (py_format fid +:+ ".txt")
  = get_results_output_dir +:+ "/" +:+ py_format fid +:+ ".txt"
  ∧ os_path_join picke_to_txt_output_dir (py_format fid +:+ ".txt")
    = picke_to_txt_output_dir +:+ "/" +:+ py_format fid +:+ ".txt".
Proof.
  intros Hfid. split; apply frame_path_plain; try done.
Qed.

(** ** Where C1, C9 and C10 fail as worded *)

(** C1 as worded fails when a later frame names the same file: the first
    frame of [twin_data] has one box and one score, and after the run its
    file holds no line, the second frame having written over it. *)
Lemma C1_counterexample :
  read_result_set twin_data = Some [twin_first; twin_second]
  ∧ List.length (fr_boxes twin_first) = List.length (fr_scores twin_first)
  ∧ List.length (fr_boxes twin_first) = 1
  ∧ (pickle_to_txt "result.pkl" "out" twin_world).1 = Ok PyNone
  ∧ files (pickle_to_txt "result.pkl" "out" twin_world).2
      !! os_path_join "out" (py_format (fr_id twin_first) +:+ ".txt")
    = Some (Text "").
Proof.
  split; [vm_compute; reflexivity |]. split; [reflexivity |].
  split; [reflexivity |]. split; vm_compute; reflexivity.
Qed.

(** C9 as worded fails when different identifiers have the same text:
    the identifiers a, a, 1 and the string 1 are three different values,
    and the run writes two files. *)
Lemma C9_counterexample :
  (read_result_set (PyList (plain_record <$> quad_ids))
   = Some ((λ fid, Frame fid [] []) <$> quad_ids))
  ∧ quad_ids = [PyStr "a"; PyStr "a"; PyInt 1; PyStr "1"]
  ∧ PyStr "a" ≠ PyInt 1 ∧ PyInt 1 ≠ PyStr "1" ∧ PyStr "a" ≠ PyStr "1"
  ∧ pickle_to_txt_body "result.pkl" "out" quad_world
    = pickle_to_txt "result.pkl" "out" quad_world
  ∧ dom (files (pickle_to_txt "result.pkl" "out" quad_world).2)
      ∖ dom (files quad_world)
    = {["out/a.txt"; "out/1.txt"]}
  ∧ size (dom (files (pickle_to_txt "result.pkl" "out" quad_world).2)
            ∖ dom (files quad_world)) = 2.
Proof.
  split; [vm_compute; reflexivity |]. split; [reflexivity |].
  split; [discriminate |]. split; [discriminate |]. split; [discriminate |].
  split; [vm_compute; reflexivity |].
  split; vm_compute; reflexivity.
Qed.

(** C10 as worded fails for a box that has no score to go with: the one
    box of the record has three items, [zip] never yields it, and the
    [try] block ends without exception, no error on the console. *)
Lemma C10_counterexample :
  files unpaired_world !! "result.pkl"
  = Some (Pickled (PyList [PyDict [("frame_id", PyStr "h");
                                   ("boxes_lidar",
                                    PyList [PyList (PyInt <$> [1; 2; 3]%Z)]);
                                   ("score", PyList [])]]))
  ∧ List.length (PyInt <$> [1; 2; 3]%Z) ≠ 7
  ∧ pickle_to_txt "result.pkl" "out" unpaired_world
    = pickle_to_txt_body "result.pkl" "out" unpaired_world
  ∧ pickle_to_txt "result.pkl" "out" unpaired_world
    = (Ok PyNone,
       World (<["out/h.txt" := Text ""]> (files unpaired_world)) {["out"]}
             ["Loading pickle file: result.pkl";
              "Creating output directory: out";
              "Writing to file: out/h.txt";
              "Completed writing for frame h"]
             calm not_a_pickle).
Proof.
  split; [vm_compute; reflexivity |]. split; [vm_compute; lia |].
  split; vm_compute; reflexivity.
Qed.
